(** * EasyFigure: the input-shape dispatch of [plot_line] and [plot_bar]

    A shallow embedding of [src/easyFig.py].  The two renderers are glue
    around a plotting library: what they compute is which calls they issue
    to that library, with which arguments and in which order.  The model
    therefore runs each renderer in a small writer/exception monad whose log
    is the sequence of library calls issued and whose failure is a Python
    exception raised by the renderer's own statements ([data[0]], [len],
    [/], [bottom += ...], a keyword given twice).

    Numbers: in the logs Python floats are idealised as exact rationals
    ([Q]); what rounding changes is measured apart, in [Binary64], on the
    arithmetic of the grouped layout.  Calls into the collaborators
    (matplotlib, [os]) are assumed to return normally, so a call that
    "completes" is one in which the renderer raises no exception of its own;
    a call reads its arguments when it is made, so the log records the value
    an argument has at the time of the call. *)

From Stdlib Require Import List String Ascii Bool Arith ZArith QArith Lia.
From Stdlib Require Import DecimalString DecimalNat.
From Stdlib Require Import Qfield.
From Stdlib Require PrimFloat FloatOps SpecFloat.
Import ListNotations.
Local Open Scope string_scope.
Local Open Scope list_scope.
Local Close Scope Q_scope.

Set Warnings "-register-all".

(** ** Python values reaching the renderers *)

(** A [dict] is kept as an association list: iteration order is insertion
    order, which the renderers rely on.  [PArray] is a one-dimensional
    [numpy.ndarray]. *)
Inductive pyval : Type :=
| PNone
| PNum (q : Q)
| PStr (s : string)
| PList (l : list pyval)
| PTuple (l : list pyval)
| PDict (d : list (string * pyval))
| PArray (l : list Q).

Definition kwargs := list (string * pyval).

(** The [legend] parameter: [Optional[Union[List[str], bool]]]. *)
Inductive legend_arg : Type :=
| LegendNone
| LegendBool (b : bool)
| LegendList (labels : list string).

Inductive exn : Type :=
| IndexError
| TypeError
| ValueError
| ZeroDivisionError.

(** ** Calls issued to the collaborators *)

Inductive event : Type :=
| StyleUse (style : string)
| Subplots (figsize : Z * Z)
| AxPlot (x : option pyval) (y : pyval) (label : option string) (kw : kwargs)
| PltPlot (x : pyval) (y : pyval) (label : string)
| PltLegend
| AxBar (x : list Q) (height : pyval) (width : Q) (label : option string)
        (bottom : option (list Q)) (kw : kwargs)
| SetXticks (x : list Q)
| SetXticklabels (labels : pyval)
| SetXlabel (s : string)
| SetYlabel (s : string)
| SetTitle (s : string)
| AxLegend (labels : option (list string))
| AxGrid (axis : option string)
| TightLayout
| Makedirs (path : string)
| Savefig (path : string) (dpi : Z) (bbox_inches : string)
| PrintLine (line : string)
| PltShow.

Definition trace := list event.

(** ** The renderer monad: a log of calls, then a value or an exception *)

Inductive outcome (A : Type) : Type :=
| Returned (a : A)
| Raised (e : exn).
Arguments Returned {A} a.
Arguments Raised {A} e.

Definition M (A : Type) : Type := (trace * outcome A)%type.

Definition ret {A} (a : A) : M A := ([], Returned a).

Definition bind {A B} (m : M A) (f : A -> M B) : M B :=
  match m with
  | (t, Raised e) => (t, Raised e)
  | (t, Returned a) => let (t', r) := f a in (t ++ t', r)
  end.

Definition emit (e : event) : M unit := ([e], Returned tt).

Definition raise {A} (e : exn) : M A := ([], Raised e).

Declare Scope py_scope.
Delimit Scope py_scope with py.
Notation "x <- m ;; k" := (bind m (fun x => k))
  (at level 61, m at next level, right associativity) : py_scope.
Notation "m ;; k" := (bind m (fun _ => k))
  (at level 61, right associativity) : py_scope.
Local Open Scope py_scope.

Definition calls {A} (m : M A) : trace := fst m.
Definition result {A} (m : M A) : outcome A := snd m.

(** [for item in xs: body item], stopping at the first exception. *)
Fixpoint for_each {A} (xs : list A) (body : A -> M unit) : M unit :=
  match xs with
  | [] => ret tt
  | x :: rest => body x ;; for_each rest body
  end.

(** [enumerate(xs)] counted from [i]. *)
Fixpoint enumerate_from {A} (i : nat) (xs : list A) : list (nat * A) :=
  match xs with
  | [] => []
  | x :: rest => (i, x) :: enumerate_from (S i) rest
  end.

Definition enumerate {A} (xs : list A) : list (nat * A) := enumerate_from 0 xs.

(** ** Built-ins used by the renderers *)

Definition isinstance_dict (v : pyval) : bool :=
  match v with PDict _ => true | _ => false end.

(** [isinstance(v, (list, tuple))] *)
Definition isinstance_seq (v : pyval) : bool :=
  match v with PList _ | PTuple _ => true | _ => false end.

Definition is_none (v : pyval) : bool :=
  match v with PNone => true | _ => false end.

(** Elements of a list or tuple. *)
Definition elements (v : pyval) : list pyval :=
  match v with PList l | PTuple l => l | _ => [] end.

(** [len(v)]: a number or [None] has no length. *)
Definition len (v : pyval) : M nat :=
  match v with
  | PStr s => ret (String.length s)
  | PList l | PTuple l => ret (List.length l)
  | PDict d => ret (List.length d)
  | PArray l => ret (List.length l)
  | PNone | PNum _ => raise TypeError
  end.

(** [l[0]] on a Python list. *)
Definition getitem0 {A} (l : list A) : M A :=
  match l with
  | [] => raise IndexError
  | a :: _ => ret a
  end.

Definition Qnat (n : nat) : Q := inject_Z (Z.of_nat n).

(** [list(range(n))] *)
Definition py_range (n : nat) : pyval := PList (map (fun i => PNum (Qnat i)) (seq 0 n)).

(** [np.arange(n)] *)
Definition arange (n : nat) : list Q := map Qnat (seq 0 n).

(** [np.zeros(n)] *)
Definition zeros (n : nat) : list Q := repeat 0%Q n.

Definition string_of_nat (n : nat) : string := NilEmpty.string_of_uint (Nat.to_uint n).

(** [f'Series {i+1}'] *)
Definition series_label (i : nat) : string := "Series " ++ string_of_nat (i + 1).

(** A call [f(..., k1=v1, ..., **kwargs)] raises [TypeError] when [kwargs]
    repeats one of the keywords written out at the call. *)
Definition collides (explicit : list string) (kw : kwargs) : bool :=
  existsb (fun k => existsb (String.eqb k) explicit) (map fst kw).

Definition call (explicit : list string) (kw : kwargs) (e : event) : M unit :=
  if collides explicit kw then raise TypeError else emit e.

(** *** numpy: [np.array(y_values)] and [bottom += ...] *)

Inductive ndarray : Type :=
| Scalar (q : Q)
| Vector (l : list Q).

Fixpoint numbers (l : list pyval) : option (list Q) :=
  match l with
  | [] => Some []
  | PNum q :: rest =>
      match numbers rest with Some qs => Some (q :: qs) | None => None end
  | _ :: _ => None
  end.

(** A list, tuple or array inside a list makes the converted array
    two-dimensional (or ragged). *)
Definition is_nested (v : pyval) : bool :=
  match v with PList _ | PTuple _ | PArray _ => true | _ => false end.

(** [np.array(y_values)] as [bottom += ...] can use it: only flat numeric
    data gives an array that can be added to [bottom].  A list that holds a
    nested sequence gives an array of another shape, which cannot be added
    in place ([ValueError]; numpy raises it at the conversion when the list
    is ragged); a list that holds strings, [None] or mappings converts, and
    the addition raises [TypeError].  No call lies between the conversion
    and the addition, so the model raises at the conversion in all cases. *)
Definition np_array (v : pyval) : M ndarray :=
  match v with
  | PNum q => ret (Scalar q)
  | PArray l => ret (Vector l)
  | PList l | PTuple l =>
      match numbers l with
      | Some qs => ret (Vector qs)
      | None => if existsb is_nested l then raise ValueError else raise TypeError
      end
  | PNone | PStr _ | PDict _ => raise TypeError
  end.

Fixpoint add_elementwise (a b : list Q) : list Q :=
  match a, b with
  | x :: a', y :: b' => (x + y)%Q :: add_elementwise a' b'
  | _, _ => []
  end.

(** [bottom += a], in place: [a] is broadcast to the shape of [bottom]
    (a scalar or a one-element array to every position) or the shapes must
    agree. *)
Definition iadd (bottom : list Q) (a : ndarray) : M (list Q) :=
  match a with
  | Scalar q => ret (map (fun b => (b + q)%Q) bottom)
  | Vector [q] => ret (map (fun b => (b + q)%Q) bottom)
  | Vector l =>
      if Nat.eqb (List.length l) (List.length bottom)
      then ret (add_elementwise bottom l)
      else raise ValueError
  end.

(** ** The file system as the save step sees it *)

Record os_env : Type := {
  dirname : string -> string;       (* os.path.dirname *)
  path_exists : string -> bool;     (* os.path.exists *)
  dirname_empty : dirname "" = ""
}.

(** ** Shape classification

    Both renderers open with the same chain of guards (lines 70, 80, 88, 94
    and 104 of [plot_line]; 217, 243, 266, 275 and 300 of [plot_bar]); the
    first guard that holds selects the branch. *)

Definition guard_mapping (data : pyval) : bool := isinstance_dict data.

Definition guard_pair_mapping (data : pyval) : bool :=
  isinstance_seq data && Nat.eqb (List.length (elements data)) 2
  && isinstance_dict (nth 1 (elements data) PNone).

Definition guard_pair (data : pyval) : bool :=
  isinstance_seq data && Nat.eqb (List.length (elements data)) 2
  && negb (isinstance_dict (nth 1 (elements data) PNone)).

Definition guard_seq_of_seqs (data : pyval) : bool :=
  isinstance_seq data && forallb isinstance_seq (elements data).

Inductive shape : Type :=
| NamedMapping (d : list (string * pyval))
| PairXMapping (x_vals : pyval) (y_dict : list (string * pyval))
| PairXY (x_vals y_vals : pyval)
| SeqOfSeqs (series : list pyval)
| SingleSeq (data : pyval).

(** The branch taken, with the names each branch binds by unpacking. *)
Definition classify (data : pyval) : shape :=
  match data with
  | PDict d => NamedMapping d
  | PList [x_vals; PDict y_dict] | PTuple [x_vals; PDict y_dict] =>
      PairXMapping x_vals y_dict
  | PList [x_vals; y_vals] | PTuple [x_vals; y_vals] => PairXY x_vals y_vals
  | PList l | PTuple l =>
      if forallb isinstance_seq l then SeqOfSeqs l else SingleSeq data
  | _ => SingleSeq data
  end.

(** ** Finishing steps shared by both renderers *)

(** Lines 117-124 and 316-323. *)
Definition handle_legend (legend : legend_arg) (series_names : option (list string))
  : M unit :=
  let legend_is_true := match legend with LegendBool true => true | _ => false end in
  let legend_is_none := match legend with LegendNone => true | _ => false end in
  let has_names := match series_names with Some _ => true | None => false end in
  if legend_is_true || (legend_is_none && has_names) then
    match legend with
    | LegendList labels => emit (AxLegend (Some labels))
    | _ => emit (AxLegend None)
    end
  else
    match legend with
    | LegendList labels => emit (AxLegend (Some labels))
    | _ => ret tt
    end.

(** Lines 133-141 and 332-340.  [if save_path:] is false for [None] and for
    the empty string. *)
Definition save_figure (os : os_env) (save_path : option string) : M unit :=
  match save_path with
  | None => ret tt
  | Some "" => ret tt
  | Some path =>
      let dir_path := dirname os path in
      (if negb (String.eqb dir_path "") && negb (path_exists os dir_path)
       then emit (Makedirs dir_path)
       else ret tt) ;;
      emit (Savefig path 300 "tight") ;;
      emit (PrintLine ("Image saved to: " ++ path))
  end.

(** ** [plot_line] (lines 7-144) *)

(** Lines 69-110: the branch taken draws the series and leaves
    [series_names]. *)
Definition line_series (data x_data : pyval) (kw : kwargs)
  : M (option (list string)) :=
    match classify data with
    | NamedMapping d =>
        for_each (enumerate d) (fun '(i, (name, y_values)) =>
          if negb (is_none x_data)
          then call ["label"] kw (AxPlot (Some x_data) y_values (Some name) kw)
          else call ["label"] kw (AxPlot None y_values (Some name) kw)) ;;
        ret (Some (map fst d))
    | PairXMapping x_vals y_dict =>
        for_each y_dict (fun '(name, y_values) =>
          call ["label"] kw (AxPlot (Some x_vals) y_values (Some name) kw)) ;;
        ret (Some (map fst y_dict))
    | PairXY x_vals y_vals =>
        call [] kw (AxPlot (Some x_vals) y_vals None kw) ;;
        ret None
    | SeqOfSeqs series =>
        x_data <- (if is_none x_data
                   then first <- getitem0 series ;;
                        n <- len first ;;
                        ret (py_range n)
                   else ret x_data) ;;
        for_each (enumerate series) (fun '(i, y_values) =>
          emit (PltPlot x_data y_values (series_label i))) ;;
        emit PltLegend ;;
        ret None
    | SingleSeq data =>
        (if negb (is_none x_data)
         then call [] kw (AxPlot (Some x_data) data None kw)
         else call [] kw (AxPlot None data None kw)) ;;
        ret None
    end.

Definition plot_line (os : os_env) (data x_data : pyval)
    (xlabel ylabel title : string) (legend : legend_arg)
    (save_path : option string) (figsize : Z * Z) (style : string)
    (grid : bool) (kw : kwargs) : M unit :=
  emit (StyleUse style) ;;
  emit (Subplots figsize) ;;
  series_names <- line_series data x_data kw ;;
  emit (SetXlabel xlabel) ;;
  emit (SetYlabel ylabel) ;;
  emit (SetTitle title) ;;
  handle_legend legend series_names ;;
  (if grid then emit (AxGrid None) else ret tt) ;;
  emit TightLayout ;;
  save_figure os save_path ;;
  emit PltShow.

(** ** [plot_bar] (lines 146-343) *)

(** [width / n] with [n] an [int]. *)
Definition truediv (width : Q) (n : nat) : M Q :=
  match n with
  | O => raise ZeroDivisionError
  | S _ => ret (width / Qnat n)%Q
  end.

(** [(i - S/2 + 0.5) * bar_width] *)
Definition offset (i S : nat) (bar_width : Q) : Q :=
  ((Qnat i - Qnat S / 2 + (1 # 2)) * bar_width)%Q.

(** [x_pos + offset] *)
Definition shift (x_pos : list Q) (off : Q) : list Q :=
  map (fun p => (p + off)%Q) x_pos.

(** The stacked loop (lines 229-232, 252-255, 286-289) over the labelled
    series; it returns the final value of [bottom]. *)
Fixpoint stacked_bars (x_pos : list Q) (width : Q) (kw : kwargs)
    (series : list (string * pyval)) (bottom : list Q) : M (list Q) :=
  match series with
  | [] => ret bottom
  | (name, y_values) :: rest =>
      call ["label"; "bottom"] kw
           (AxBar x_pos y_values width (Some name) (Some bottom) kw) ;;
      a <- np_array y_values ;;
      bottom <- iadd bottom a ;;
      stacked_bars x_pos width kw rest bottom
  end.

(** The grouped loop (lines 235-238, 258-261, 292-295). *)
Definition grouped_bars (x_pos : list Q) (width : Q) (kw : kwargs)
    (series : list (string * pyval)) : M unit :=
  bar_width <- truediv width (List.length series) ;;
  for_each (enumerate series) (fun '(i, (name, y_values)) =>
    call ["label"] kw
         (AxBar (shift x_pos (offset i (List.length series) bar_width))
                y_values bar_width (Some name) None kw)).

(** [if bar_type == 'stacked': ... else: ...]; [np.zeros(len(x_data))] has
    the length of [x_pos = np.arange(len(x_data))]. *)
Definition draw_bars (bar_type : string) (x_pos : list Q) (width : Q)
    (kw : kwargs) (series : list (string * pyval)) : M unit :=
  if String.eqb bar_type "stacked"
  then stacked_bars x_pos width kw series (zeros (List.length x_pos)) ;; ret tt
  else grouped_bars x_pos width kw series.

(** [[f'Series {i+1}' for i in range(len(data))]] *)
Definition auto_names (series : list pyval) : list string :=
  map series_label (seq 0 (List.length series)).

(** Lines 216-309: the branch taken draws the bars, sets the ticks and
    leaves [series_names]. *)
Definition bar_series (data x_data : pyval) (bar_type : string) (width : Q)
    (kw : kwargs) : M (option (list string)) :=
    match classify data with
    | NamedMapping d =>
        let series_names := map fst d in
        let series_data := map snd d in
        x_data <- (if is_none x_data
                   then first <- getitem0 series_data ;;
                        n <- len first ;;
                        ret (py_range n)
                   else ret x_data) ;;
        n <- len x_data ;;
        let x_pos := arange n in
        draw_bars bar_type x_pos width kw d ;;
        emit (SetXticks x_pos) ;;
        emit (SetXticklabels x_data) ;;
        ret (Some series_names)
    | PairXMapping x_vals y_dict =>
        let series_names := map fst y_dict in
        n <- len x_vals ;;
        let x_pos := arange n in
        draw_bars bar_type x_pos width kw y_dict ;;
        emit (SetXticks x_pos) ;;
        emit (SetXticklabels x_vals) ;;
        ret (Some series_names)
    | PairXY x_vals y_vals =>
        n <- len x_vals ;;
        let x_pos := arange n in
        call [] kw (AxBar x_pos y_vals width None None kw) ;;
        emit (SetXticks x_pos) ;;
        emit (SetXticklabels x_vals) ;;
        ret None
    | SeqOfSeqs series =>
        let series_names := auto_names series in
        x_data <- (if is_none x_data
                   then first <- getitem0 series ;;
                        n <- len first ;;
                        ret (py_range n)
                   else ret x_data) ;;
        n <- len x_data ;;
        let x_pos := arange n in
        draw_bars bar_type x_pos width kw (combine series_names series) ;;
        emit (SetXticks x_pos) ;;
        emit (SetXticklabels x_data) ;;
        ret (Some series_names)
    | SingleSeq data =>
        x_data <- (if is_none x_data
                   then n <- len data ;; ret (py_range n)
                   else ret x_data) ;;
        n <- len x_data ;;
        let x_pos := arange n in
        call [] kw (AxBar x_pos data width None None kw) ;;
        emit (SetXticks x_pos) ;;
        emit (SetXticklabels x_data) ;;
        ret None
    end.

Definition plot_bar (os : os_env) (data x_data : pyval)
    (xlabel ylabel title : string) (legend : legend_arg)
    (save_path : option string) (figsize : Z * Z) (style : string)
    (grid : bool) (bar_type : string) (width : Q) (kw : kwargs) : M unit :=
  emit (StyleUse style) ;;
  emit (Subplots figsize) ;;
  series_names <- bar_series data x_data bar_type width kw ;;
  emit (SetXlabel xlabel) ;;
  emit (SetYlabel ylabel) ;;
  emit (SetTitle title) ;;
  handle_legend legend series_names ;;
  (if grid then emit (AxGrid (Some "y")) else ret tt) ;;
  emit TightLayout ;;
  save_figure os save_path ;;
  emit PltShow.

(** ** A POSIX file system for concrete runs *)

Fixpoint drop_while {A} (f : A -> bool) (l : list A) : list A :=
  match l with
  | [] => []
  | a :: rest => if f a then drop_while f rest else l
  end.

Definition is_sep (c : ascii) : bool := Ascii.eqb c "/"%char.

(** [posixpath.dirname]: everything up to the last [/], with trailing
    slashes removed unless the head is nothing but slashes. *)
Definition posix_dirname (p : string) : string :=
  let rev_head := drop_while (fun c => negb (is_sep c)) (rev (list_ascii_of_string p)) in
  let rev_head := if forallb is_sep rev_head then rev_head
                  else drop_while is_sep rev_head in
  string_of_list_ascii (rev rev_head).

(** A file system in which exactly the paths of [present] exist. *)
Definition posix (present : list string) : os_env :=
  {| dirname := posix_dirname;
     path_exists := fun p => existsb (String.eqb p) present;
     dirname_empty := eq_refl |}.

(** The renderers called with every optional parameter at its default. *)
Definition plot_line_default (os : os_env) (data : pyval) : M unit :=
  plot_line os data PNone "X Axis" "Y Axis" "Line Plot" LegendNone None
            (10, 6)%Z "default" true [].

Definition plot_bar_default (os : os_env) (data : pyval) : M unit :=
  plot_bar os data PNone "X Axis" "Y Axis" "Bar Plot" LegendNone None
           (10, 6)%Z "default" true "grouped" (8 # 10)%Q [].

(** ** What a log shows *)

(** The per-series draw primitives. *)
Definition is_draw (e : event) : bool :=
  match e with
  | AxPlot _ _ _ _ | PltPlot _ _ _ | AxBar _ _ _ _ _ _ => true
  | _ => false
  end.

Definition draws (t : trace) : trace := filter is_draw t.

Definition is_legend (e : event) : bool :=
  match e with AxLegend _ | PltLegend => true | _ => false end.

(** Was a legend displayed? *)
Definition legend_shown (t : trace) : bool := existsb is_legend t.

(** The last legend call decides which labels the legend carries. *)
Definition final_legend (t : trace) : option event :=
  last (map Some (filter is_legend t)) None.

(** The label a draw call attaches to its series. *)
Definition draw_label (e : event) : option string :=
  match e with
  | AxPlot _ _ label _ => label
  | PltPlot _ _ label => Some label
  | AxBar _ _ _ label _ _ => label
  | _ => None
  end.

(** Names of the series drawn with a label. *)
Definition named_series (t : trace) : list string :=
  flat_map (fun e => match draw_label e with Some l => [l] | None => [] end)
           (draws t).

(** The keyword bag a draw call received, [[]] when none was given. *)
Definition draw_kwargs (e : event) : kwargs :=
  match e with
  | AxPlot _ _ _ kw => kw
  | AxBar _ _ _ _ _ kw => kw
  | _ => []
  end.

Definition is_file_event (e : event) : bool :=
  match e with Makedirs _ | Savefig _ _ _ | PrintLine _ => true | _ => false end.

(** The x-values a line is drawn at: matplotlib's [plot(y)] takes the
    indices of [y] when no x is given ([0 .. len(y)-1] for a list, tuple or
    array, the single index 0 for a number; a value that holds no numbers
    has no index). *)
Definition plotted_x (x : option pyval) (y : pyval) : pyval :=
  match x with
  | Some x => x
  | None =>
      match y with
      | PList l | PTuple l => py_range (List.length l)
      | PArray l => py_range (List.length l)
      | PNum _ => py_range 1
      | PNone | PStr _ | PDict _ => py_range 0
      end
  end.

(** The labelled series of the three multi-series shapes. *)
Definition series_of (data : pyval) : option (list (string * pyval)) :=
  match classify data with
  | NamedMapping d => Some d
  | PairXMapping _ y_dict => Some y_dict
  | SeqOfSeqs series => Some (combine (auto_names series) series)
  | PairXY _ _ | SingleSeq _ => None
  end.

Definition multi_series (data : pyval) : bool :=
  match series_of data with Some _ => true | None => false end.

Definition bar_width_of (e : event) : list Q :=
  match e with AxBar _ _ w _ _ _ => [w] | _ => [] end.

Definition bar_widths (t : trace) : list Q := flat_map bar_width_of t.

Definition Qsum (l : list Q) : Q := fold_right Qplus 0%Q l.

(** The steps after the dispatch, as one log. *)
Definition finishing (os : os_env) (grid_axis : option string)
    (xlabel ylabel title : string) (legend : legend_arg)
    (save_path : option string) (grid : bool)
    (series_names : option (list string)) : trace :=
  [SetXlabel xlabel; SetYlabel ylabel; SetTitle title]
  ++ calls (handle_legend legend series_names)
  ++ (if grid then [AxGrid grid_axis] else [])
  ++ [TightLayout]
  ++ calls (save_figure os save_path)
  ++ [PltShow].

(** The line a draw call produces, as (x-values, y-values). *)
Definition line_of (e : event) : option (pyval * pyval) :=
  match e with
  | AxPlot x y _ _ => Some (plotted_x x y, y)
  | PltPlot x y _ => Some (x, y)
  | _ => None
  end.

Definition lines (t : trace) : list (pyval * pyval) :=
  flat_map (fun e => match line_of e with Some l => [l] | None => [] end) t.

(** A flat numeric list [[q1, ..., qn]]. *)
Definition flat (ys : list Q) : pyval := PList (map PNum ys).

(** Every draw call of the log received the bag [kw]. *)
Definition forwards (kw : kwargs) (t : trace) : Prop :=
  Forall (fun e => draw_kwargs e = kw) (draws t).

(** A plain sequence: a list, a tuple or an array, not a mapping. *)
Definition plain_sequence (v : pyval) : bool :=
  match v with
  | PList _ | PTuple _ | PArray _ => true
  | _ => false
  end.

(** The call the grouped loop issues for series [i] of [S]. *)
Definition grouped_bar (ticks : list Q) (W : Q) (kw : kwargs) (S : nat)
    (s : nat * (string * pyval)) : event :=
  let '(i, (name, y_values)) := s in
  AxBar (shift ticks (offset i S (W / Qnat S)%Q)) y_values (W / Qnat S)%Q
        (Some name) None kw.

(** *** Stacked bars: the heights of a series and their sums *)

(** An array seen at [n] positions, as numpy broadcasts it. *)
Definition broadcast (n : nat) (a : ndarray) : option (list Q) :=
  match a with
  | Scalar q => Some (repeat q n)
  | Vector [q] => Some (repeat q n)
  | Vector l => if Nat.eqb (List.length l) n then Some l else None
  end.

(** The y-values of a series at each of [n] positions. *)
Definition heights (n : nat) (y_values : pyval) : option (list Q) :=
  match np_array y_values with
  | (_, Returned a) => broadcast n a
  | (_, Raised _) => None
  end.

(** The values of all [rows] at position [j]. *)
Definition column (j : nat) (rows : list (list Q)) : list Q :=
  map (fun row => nth j row 0%Q) rows.

(** [y_values] is a flat numeric sequence (a list, a tuple or an array)
    holding exactly the numbers [row]. *)
Inductive flat_values : pyval -> list Q -> Prop :=
| flat_list row : flat_values (PList (map PNum row)) row
| flat_tuple row : flat_values (PTuple (map PNum row)) row
| flat_array row : flat_values (PArray row) row.

(** The sum of the values the series [rows] have at position [j], taken in
    series order from zero: [((0 + y0) + y1) + ...]. *)
Definition running_sum (j : nat) (rows : list (list Q)) : Q :=
  fold_left Qplus (column j rows) 0%Q.

(** Calls the line dispatch may issue, and calls the bar dispatch may issue. *)
Definition is_line_event (e : event) : bool :=
  match e with
  | AxPlot _ _ _ _ | PltPlot _ _ _ | PltLegend => true
  | _ => false
  end.

Definition is_bar_event (e : event) : bool :=
  match e with
  | AxBar _ _ _ _ _ _ | SetXticks _ | SetXticklabels _ => true
  | _ => false
  end.

Definition is_bar (e : event) : bool :=
  match e with AxBar _ _ _ _ _ _ => true | _ => false end.

(** Every call of [m] satisfies [P]. *)
Definition only {A} (P : event -> Prop) (m : M A) : Prop :=
  Forall P (calls m).


(** What a completed save step leaves in the log, in order. *)
Definition saved_with_parent (os : os_env) (path : string) : trace :=
  [Makedirs (dirname os path); Savefig path 300 "tight";
   PrintLine ("Image saved to: " ++ path)].

Definition file_events (t : trace) : trace := filter is_file_event t.

Definition legend_calls (t : trace) : trace := filter is_legend t.

(** The claim of the specification for an unset [legend]: a legend is
    displayed exactly when more than one named series exists. *)
Definition legend_iff_several_named (t : trace) : Prop :=
  legend_shown t = true <-> 1 < List.length (named_series t).

(** A series of [n] numbers given as a flat list. *)
Definition flat_series (n : nat) (s : string * pyval) : Prop :=
  exists qs, snd s = flat qs /\ List.length qs = n.

(** A call that, if it draws, was given the bag [kw]. *)
Definition given (kw : kwargs) (e : event) : Prop :=
  match e with
  | AxPlot _ _ _ k | AxBar _ _ _ _ _ k => k = kw
  | PltPlot _ _ _ => False
  | _ => True
  end.

(** The x positions of the bar calls of a log. *)
Definition bar_positions (t : trace) : list (list Q) :=
  flat_map (fun e => match e with AxBar x _ _ _ _ _ => [x] | _ => [] end) t.

(** ** Lines 235 to 238 in the arithmetic the source runs in

    A Python [float] is an IEEE binary64 number and every operation on it
    rounds.  [Binary64] repeats the arithmetic of the grouped loop over the
    kernel's binary64 floats, to measure what the exact rationals of the
    model leave out.  [len(...)], [i] and the entries of [np.arange] are
    integers and convert exactly; the number of series is at least one. *)
Module Binary64.
Import PrimFloat.
Local Open Scope float_scope.

Definition of_nat (n : nat) : float := Nat.iter n (fun x => x + 1) 0.

(** [np.arange(n)] *)
Definition arange (n : nat) : list float := map of_nat (seq 0 n).

(** [width / len(series_names)] *)
Definition bar_width (width : float) (S : nat) : float := width / of_nat S.

(** [(i - len(series_names)/2 + 0.5) * bar_width] *)
Definition offset (i S : nat) (bar_width : float) : float :=
  (of_nat i - of_nat S / 2 + 0.5) * bar_width.

(** The first and the third argument of [ax.bar(x_pos + offset, y_values,
    bar_width, ...)], for the series [0 .. S-1] in turn. *)
Definition grouped_bars (x_pos : list float) (width : float) (S : nat)
  : list (list float * float) :=
  map (fun i => (map (fun p => p + offset i S (bar_width width S)) x_pos,
                 bar_width width S))
      (seq 0 S).

(** A sum taken from left to right, starting from zero, as Python's [sum]
    takes it. *)
Definition sum (l : list float) : float := fold_left add l 0.

(** Python's [0.8], the default [width]. *)
Definition default_width : float := 8 / 10.

(** The rational number a finite float stands for. *)
Definition to_Q (f : float) : Q :=
  match FloatOps.Prim2SF f with
  | SpecFloat.S754_finite s m e =>
      ((if s then - (1) else 1) * inject_Z (Zpos m) * 2 ^ e)%Q
  | _ => 0%Q
  end.

End Binary64.

(** ** Further observations on a log *)

(** [main] (lines 346-347) assigns a local and returns. *)
Definition main : M unit := ret tt.

(** The x argument the mapping branch of [plot_line] passes along:
    [x_data] when it is given, nothing otherwise. *)
Definition given_x (x_data : pyval) : option pyval :=
  if is_none x_data then None else Some x_data.

(** The series a draw call draws: its label and its y-values. *)
Definition drawn_series (e : event) : option (option string * pyval) :=
  match e with
  | AxPlot _ y label _ => Some (label, y)
  | PltPlot _ y label => Some (Some label, y)
  | AxBar _ y _ label _ _ => Some (label, y)
  | _ => None
  end.

Definition drawn (t : trace) : list (option string * pyval) :=
  flat_map (fun e => match drawn_series e with Some s => [s] | None => [] end) t.

Definition is_tick (e : event) : bool :=
  match e with SetXticks _ | SetXticklabels _ => true | _ => false end.

Definition tick_events (t : trace) : trace := filter is_tick t.

Definition is_grid (e : event) : bool :=
  match e with AxGrid _ => true | _ => false end.

Definition grid_calls (t : trace) : trace := filter is_grid t.

(** The calls of the steps after the dispatch. *)
Definition is_finishing_event (e : event) : bool :=
  match e with
  | SetXlabel _ | SetYlabel _ | SetTitle _ | AxLegend _ | AxGrid _
  | TightLayout | Makedirs _ | Savefig _ _ _ | PrintLine _ | PltShow => true
  | _ => false
  end.

Definition is_setup (e : event) : bool :=
  match e with StyleUse _ | Subplots _ => true | _ => false end.

(** One labelled line per series, all against the same x argument. *)
Definition labelled_lines (x : option pyval) (kw : kwargs)
    (ss : list (string * pyval)) : trace :=
  map (fun s => AxPlot x (snd s) (Some (fst s)) kw) ss.

(** The auto-labelled lines of the sequence-of-sequences branch. *)
Definition series_lines (x : pyval) (series : list pyval) : trace :=
  map (fun s => PltPlot x (snd s) (series_label (fst s))) (enumerate series).

Definition is_pair_shape (data : pyval) : bool :=
  match classify data with
  | PairXMapping _ _ | PairXY _ _ => true
  | _ => false
  end.

(** The object whose length sizes the x-axis of a single-series bar chart:
    the pair's first element, else [x_data] when given, else the data. *)
Definition single_axis (data x_data : pyval) : pyval :=
  match classify data with
  | PairXY x_vals _ => x_vals
  | SingleSeq s => if is_none x_data then s else x_data
  | _ => x_data
  end.

(** The x-axis [plot_bar] is told explicitly, if any: the first element of
    a pair, else [x_data] when given. *)
Definition explicit_axis (data x_data : pyval) : option pyval :=
  match classify data with
  | PairXMapping x_vals _ | PairXY x_vals _ => Some x_vals
  | _ => if is_none x_data then None else Some x_data
  end.

(** ** The monad and the loops *)

Lemma bind_calls_result {A B} (m : M A) (f : A -> M B) :
  bind m f =
  match result m with
  | Returned a => (calls m ++ calls (f a), result (f a))
  | Raised e => (calls m, Raised e)
  end.
Proof.
  destruct m as [t [a|e]]; simpl; [destruct (f a); reflexivity | reflexivity].
Qed.

Lemma bind_ret_l {A B} (a : A) (f : A -> M B) : bind (ret a) f = f a.
Proof. unfold bind, ret. destruct (f a); reflexivity. Qed.

Lemma bind_emit_l {B} (e : event) (f : unit -> M B) :
  bind (emit e) f = (e :: calls (f tt), result (f tt)).
Proof. unfold bind, emit. destruct (f tt); reflexivity. Qed.

Lemma call_nil kw e : call [] kw e = emit e.
Proof.
  unfold call, collides.
  assert (H : existsb (fun k => existsb (String.eqb k) []) (map fst kw) = false)
    by (induction (map fst kw); simpl; auto).
  rewrite H; reflexivity.
Qed.

Lemma for_each_emit {A} (f : A -> event) (xs : list A) :
  for_each xs (fun x => emit (f x)) = (map f xs, Returned tt).
Proof.
  induction xs as [|x xs IH]; simpl; [reflexivity|].
  rewrite IH; reflexivity.
Qed.

Lemma for_each_call {A} explicit kw (f : A -> event) (xs : list A) :
  for_each xs (fun x => call explicit kw (f x)) =
  if collides explicit kw
  then match xs with [] => ret tt | _ :: _ => raise TypeError end
  else (map f xs, Returned tt).
Proof.
  unfold call. destruct (collides explicit kw).
  - destruct xs; reflexivity.
  - apply for_each_emit.
Qed.

Lemma for_each_ext {A} (f g : A -> M unit) xs :
  (forall x, f x = g x) -> for_each xs f = for_each xs g.
Proof.
  intros H; induction xs as [|x xs IH]; simpl; [reflexivity|].
  rewrite H, IH; reflexivity.
Qed.

Lemma handle_legend_returns legend sn : result (handle_legend legend sn) = Returned tt.
Proof. destruct legend as [|[|]|l], sn; reflexivity. Qed.

Lemma save_figure_returns os p : result (save_figure os p) = Returned tt.
Proof.
  destruct p as [[|c s]|]; try reflexivity.
  unfold save_figure.
  destruct (negb (dirname os (String c s) =? "")%string && negb (path_exists os (dirname os (String c s))));
    reflexivity.
Qed.

Lemma plot_line_run os data x_data xlabel ylabel title legend save_path figsize style grid kw :
  plot_line os data x_data xlabel ylabel title legend save_path figsize style grid kw =
  match result (line_series data x_data kw) with
  | Returned sn =>
      ([StyleUse style; Subplots figsize] ++ calls (line_series data x_data kw)
       ++ finishing os None xlabel ylabel title legend save_path grid sn,
       Returned tt)
  | Raised e =>
      ([StyleUse style; Subplots figsize] ++ calls (line_series data x_data kw),
       Raised e)
  end.
Proof.
  unfold plot_line, finishing.
  destruct (line_series data x_data kw) as [t [sn|e]]; simpl; [|reflexivity].
  pose proof (handle_legend_returns legend sn) as HL.
  pose proof (save_figure_returns os save_path) as HS.
  destruct (handle_legend legend sn) as [tl rl]; simpl in *; subst rl.
  destruct (save_figure os save_path) as [ts rs]; simpl in *; subst rs.
  destruct grid; simpl; rewrite <- ?app_assoc; reflexivity.
Qed.

Lemma plot_bar_run os data x_data xlabel ylabel title legend save_path figsize style grid
      bar_type width kw :
  plot_bar os data x_data xlabel ylabel title legend save_path figsize style grid
           bar_type width kw =
  match result (bar_series data x_data bar_type width kw) with
  | Returned sn =>
      ([StyleUse style; Subplots figsize]
       ++ calls (bar_series data x_data bar_type width kw)
       ++ finishing os (Some "y") xlabel ylabel title legend save_path grid sn,
       Returned tt)
  | Raised e =>
      ([StyleUse style; Subplots figsize]
       ++ calls (bar_series data x_data bar_type width kw),
       Raised e)
  end.
Proof.
  unfold plot_bar, finishing.
  destruct (bar_series data x_data bar_type width kw) as [t [sn|e]]; simpl; [|reflexivity].
  pose proof (handle_legend_returns legend sn) as HL.
  pose proof (save_figure_returns os save_path) as HS.
  destruct (handle_legend legend sn) as [tl rl]; simpl in *; subst rl.
  destruct (save_figure os save_path) as [ts rs]; simpl in *; subst rs.
  destruct grid; simpl; rewrite <- ?app_assoc; reflexivity.
Qed.

(** ** Classification follows the guard chain *)

(** [classify] names the branch of the first guard that holds. *)
Lemma classify_first_guard data :
  match classify data with
  | NamedMapping _ => guard_mapping data = true
  | PairXMapping _ _ =>
      guard_mapping data = false /\ guard_pair_mapping data = true
  | PairXY _ _ =>
      guard_mapping data = false /\ guard_pair_mapping data = false
      /\ guard_pair data = true
  | SeqOfSeqs _ =>
      guard_mapping data = false /\ guard_pair_mapping data = false
      /\ guard_pair data = false /\ guard_seq_of_seqs data = true
  | SingleSeq _ =>
      guard_mapping data = false /\ guard_pair_mapping data = false
      /\ guard_pair data = false /\ guard_seq_of_seqs data = false
  end.
Proof.
  destruct data as [ | q | s | l | l | d | l];
    try (cbn; repeat split; reflexivity);
    (destruct l as [|a [|b [|c l]]];
     [ cbn; repeat split; reflexivity
     | cbn; destruct (isinstance_seq a); cbn; repeat split; reflexivity
     | destruct b; cbn; try destruct (isinstance_seq a); cbn;
       repeat split; reflexivity
     | destruct b;
       unfold guard_mapping, guard_pair_mapping, guard_pair, guard_seq_of_seqs;
       cbn -[forallb];
       match goal with
       | |- context [forallb isinstance_seq ?xs] =>
           destruct (forallb isinstance_seq xs)
       end;
       repeat split; reflexivity ]).
Qed.

(** ** Flat sequences given to [plot_line] *)

Lemma classify_flat (ys : list Q) :
  List.length ys <> 0 -> List.length ys <> 2 ->
  classify (flat ys) = SingleSeq (flat ys).
Proof.
  intros H0 H2.
  destruct ys as [|a [|b [|c l]]]; simpl in *; try congruence; reflexivity.
Qed.

(** X21: a flat sequence of any length other than 0 and 2 reaches the
    fallback branch: the call raises no exception of its own and draws it as
    one line over its own indices. *)
Lemma plot_line_flat os (ys : list Q) :
  List.length ys <> 0 -> List.length ys <> 2 ->
  result (plot_line_default os (flat ys)) = Returned tt /\
  lines (calls (plot_line_default os (flat ys))) =
    [(py_range (List.length ys), flat ys)].
Proof.
  intros H0 H2. unfold plot_line_default.
  rewrite plot_line_run. unfold line_series.
  rewrite (classify_flat ys H0 H2). simpl.
  rewrite length_map. split; reflexivity.
Qed.

(** C1, at a two-element list: [plot_line([1, 2])] takes the list for an
    (x, y) pair and issues [ax.plot(1, 2)], one point at x = 1 and y = 2,
    instead of the line y = [1, 2] over x = [0, 1] that the docstring's
    "List: single data series" promises. *)
Theorem plot_line_two_numbers_read_as_pair os :
  lines (calls (plot_line_default os (flat [1; 2]%Q))) = [(PNum 1, PNum 2)]
  /\ lines (calls (plot_line_default os (flat [1; 2]%Q)))
     <> [(py_range 2, flat [1; 2]%Q)].
Proof.
  split; [reflexivity | discriminate].
Qed.

(** ** Keyword options *)

(** C6, at a sequence of three sequences: [plot_line(data, color='red')]
    draws every series through [plt.plot(x, y, label=...)], which is not
    given the keyword options; [plot_bar] forwards them on the same input. *)
Theorem plot_line_seq_of_seqs_drops_kwargs os :
  let kw := [("color", PStr "red")] in
  let data := PList [flat [1; 2; 3]; flat [4; 5; 6]; flat [7; 8; 9]]%Q in
  let t := calls (plot_line os data PNone "X Axis" "Y Axis" "Line Plot"
                            LegendNone None (10, 6)%Z "default" true kw) in
  draws t = [PltPlot (py_range 3) (flat [1; 2; 3]%Q) "Series 1";
             PltPlot (py_range 3) (flat [4; 5; 6]%Q) "Series 2";
             PltPlot (py_range 3) (flat [7; 8; 9]%Q) "Series 3"]
  /\ ~ forwards kw t
  /\ forwards kw (calls (plot_bar os data PNone "X Axis" "Y Axis" "Bar Plot"
                                  LegendNone None (10, 6)%Z "default" true
                                  "grouped" (8 # 10)%Q kw)).
Proof.
  cbv zeta. split; [reflexivity|]. split.
  - intros H. unfold forwards in H. simpl in H.
    inversion H as [|e l Hkw _]; discriminate Hkw.
  - unfold forwards. simpl. repeat constructor.
Qed.

(** ** Empty inputs *)

(** C7, at the empty list and the empty mapping: the list is vacuously a
    sequence of sequences, and that branch (like the mapping branch of
    [plot_bar]) reads element 0 to size the x-axis.  The renderer raises
    [IndexError] itself, before any draw or legend call. *)
Theorem empty_input_raises_IndexError os :
  plot_line_default os (PList []) =
    ([StyleUse "default"; Subplots (10, 6)%Z], Raised IndexError)
  /\ plot_bar_default os (PList []) =
    ([StyleUse "default"; Subplots (10, 6)%Z], Raised IndexError)
  /\ plot_bar_default os (PDict []) =
    ([StyleUse "default"; Subplots (10, 6)%Z], Raised IndexError).
Proof. repeat split. Qed.

(** The mapping branch of [plot_line] does not index: an empty mapping
    gives zero series and the call completes. *)
Lemma plot_line_empty_mapping os :
  result (plot_line_default os (PDict [])) = Returned tt /\
  draws (calls (plot_line_default os (PDict []))) = [].
Proof. split; reflexivity. Qed.

(** ** The draw calls of a run are those of its dispatch *)

Lemma draws_app t1 t2 : draws (t1 ++ t2) = draws t1 ++ draws t2.
Proof. apply filter_app. Qed.

Lemma save_figure_calls os p :
  calls (save_figure os p) = filter is_file_event (calls (save_figure os p)).
Proof.
  destruct p as [[|c s]|]; try reflexivity.
  unfold save_figure.
  destruct (negb (dirname os (String c s) =? "")%string
            && negb (path_exists os (dirname os (String c s)))); reflexivity.
Qed.

Lemma draws_save_figure os p : draws (calls (save_figure os p)) = [].
Proof.
  destruct p as [[|c s]|]; try reflexivity.
  unfold save_figure.
  destruct (negb (dirname os (String c s) =? "")%string
            && negb (path_exists os (dirname os (String c s)))); reflexivity.
Qed.

Lemma draws_finishing os axis xlabel ylabel title legend save_path grid sn :
  draws (finishing os axis xlabel ylabel title legend save_path grid sn) = [].
Proof.
  unfold finishing. rewrite !draws_app, draws_save_figure.
  destruct legend as [|[|]|l], sn, grid; reflexivity.
Qed.

Lemma draws_plot_line os data x_data xlabel ylabel title legend save_path figsize style grid kw :
  draws (calls (plot_line os data x_data xlabel ylabel title legend save_path
                          figsize style grid kw))
  = draws (calls (line_series data x_data kw)).
Proof.
  rewrite plot_line_run.
  destruct (result (line_series data x_data kw)); unfold calls at 1; cbn [fst].
  - rewrite !draws_app, draws_finishing, app_nil_r. reflexivity.
  - rewrite draws_app. reflexivity.
Qed.

Lemma draws_plot_bar os data x_data xlabel ylabel title legend save_path figsize style grid
      bar_type width kw :
  draws (calls (plot_bar os data x_data xlabel ylabel title legend save_path
                         figsize style grid bar_type width kw))
  = draws (calls (bar_series data x_data bar_type width kw)).
Proof.
  rewrite plot_bar_run.
  destruct (result (bar_series data x_data bar_type width kw)); unfold calls at 1; cbn [fst].
  - rewrite !draws_app, draws_finishing, app_nil_r. reflexivity.
  - rewrite draws_app. reflexivity.
Qed.

(** ** The (x, y) pair shape *)

Lemma classify_pair (a b : pyval) :
  isinstance_dict b = false ->
  classify (PList [a; b]) = PairXY a b /\ classify (PTuple [a; b]) = PairXY a b.
Proof. destruct b; intros H; try discriminate H; split; reflexivity. Qed.

Lemma line_series_pair data x_data kw a b :
  classify data = PairXY a b ->
  line_series data x_data kw = ([AxPlot (Some a) b None kw], Returned None).
Proof.
  intros H. unfold line_series. rewrite H. cbv beta iota.
  rewrite call_nil. reflexivity.
Qed.

Lemma bar_series_pair data x_data bar_type width kw a b n :
  classify data = PairXY a b ->
  len a = ret n ->
  bar_series data x_data bar_type width kw =
  ([AxBar (arange n) b width None None kw; SetXticks (arange n); SetXticklabels a],
   Returned None).
Proof.
  intros H Hn. unfold bar_series. rewrite H. cbv beta iota.
  rewrite Hn, bind_ret_l, call_nil. reflexivity.
Qed.

Lemma plain_sequence_len a :
  plain_sequence a = true -> exists n, len a = ret n.
Proof. destruct a; intros H; try discriminate H; eexists; reflexivity. Qed.

Lemma plain_sequence_not_dict b : plain_sequence b = true -> isinstance_dict b = false.
Proof. destruct b; intros H; try discriminate H; reflexivity. Qed.

(** C2: a two-element list or tuple of two plain sequences is taken for the
    (x, y) pair by both renderers: one draw call, unlabelled, with the first
    element as the x-axis (for bars: one position per element of it, and the
    element itself as the tick labels), and never the "Series i" calls of the
    sequence-of-sequences branch. *)
Theorem pair_of_sequences_is_xy_pair os (a b data x_data : pyval)
    xlabel ylabel title legend save_path figsize style grid bar_type width kw :
  plain_sequence a = true -> plain_sequence b = true ->
  data = PList [a; b] \/ data = PTuple [a; b] ->
  classify data = PairXY a b
  /\ (forall series, classify data <> SeqOfSeqs series)
  /\ draws (calls (plot_line os data x_data xlabel ylabel title legend save_path
                             figsize style grid kw))
     = [AxPlot (Some a) b None kw]
  /\ exists n, len a = ret n
     /\ draws (calls (plot_bar os data x_data xlabel ylabel title legend save_path
                               figsize style grid bar_type width kw))
        = [AxBar (arange n) b width None None kw]
     /\ In (SetXticklabels a)
           (calls (plot_bar os data x_data xlabel ylabel title legend save_path
                            figsize style grid bar_type width kw)).
Proof.
  intros Ha Hb Hdata.
  assert (Hc : classify data = PairXY a b).
  { destruct (classify_pair a b (plain_sequence_not_dict b Hb)) as [Hl Ht].
    destruct Hdata; subst data; assumption. }
  destruct (plain_sequence_len a Ha) as [n Hn].
  split; [exact Hc|]. split; [intros series; rewrite Hc; discriminate|].
  split.
  - rewrite draws_plot_line, (line_series_pair _ _ _ _ _ Hc). reflexivity.
  - exists n. split; [exact Hn|]. split.
    + rewrite draws_plot_bar, (bar_series_pair _ _ _ _ _ _ _ _ Hc Hn). reflexivity.
    + rewrite plot_bar_run, (bar_series_pair _ _ _ _ _ _ _ _ Hc Hn).
      unfold result, calls; cbn [fst snd].
      apply in_or_app; right; apply in_or_app; left.
      simpl; auto.
Qed.

Lemma pair_of_sequences_is_xy_pair_witness :
  let a := flat [1; 2; 3]%Q in
  let b := flat [4; 5; 6]%Q in
  classify (PTuple [a; b]) = PairXY a b
  /\ guard_seq_of_seqs (PTuple [a; b]) = true
  /\ draws (calls (plot_line_default (posix []) (PTuple [a; b])))
     = [AxPlot (Some a) b None []].
Proof.
  cbv zeta.
  destruct (pair_of_sequences_is_xy_pair (posix [])
              (flat [1; 2; 3]%Q) (flat [4; 5; 6]%Q)
              (PTuple [flat [1; 2; 3]%Q; flat [4; 5; 6]%Q]) PNone
              "X Axis" "Y Axis" "Line Plot" LegendNone None (10, 6)%Z "default"
              true "grouped" (8 # 10)%Q [] eq_refl eq_refl (or_intror eq_refl))
    as (Hc & _ & Hl & _).
  split; [exact Hc|]. split; [reflexivity|exact Hl].
Defined.

(** ** The three multi-series branches of [plot_bar] *)

Lemma len_cases v : (exists n, len v = ret n) \/ len v = raise TypeError.
Proof. destruct v; simpl; eauto. Qed.

Lemma ticks_run (m : M unit) (x_pos : list Q) (x : pyval) (sn : list string) :
  (m ;; emit (SetXticks x_pos) ;; emit (SetXticklabels x) ;; ret (Some sn)) =
  match result m with
  | Returned _ => (calls m ++ [SetXticks x_pos; SetXticklabels x], Returned (Some sn))
  | Raised e => (calls m, Raised e)
  end.
Proof. destruct m as [t [u|e]]; reflexivity. Qed.

(** Each multi-series branch either fails while sizing the x-axis, before
    any call, or draws the bars of its labelled series over [arange n] and
    then sets the ticks. *)
Lemma bar_series_multi data x_data bar_type width kw ss :
  series_of data = Some ss ->
  (exists e, bar_series data x_data bar_type width kw = ([], Raised e))
  \/ (exists x n sn,
        bar_series data x_data bar_type width kw =
        match result (draw_bars bar_type (arange n) width kw ss) with
        | Returned _ =>
            (calls (draw_bars bar_type (arange n) width kw ss)
             ++ [SetXticks (arange n); SetXticklabels x], Returned (Some sn))
        | Raised e => (calls (draw_bars bar_type (arange n) width kw ss), Raised e)
        end).
Proof.
  unfold series_of, bar_series.
  destruct (classify data) as [d|x_vals d| | series |]; intros H;
    try discriminate H; injection H as <-.
  - (* mapping *)
    destruct (is_none x_data).
    + destruct d as [|[k v] d]; [left; eexists; reflexivity|].
      cbn [map snd getitem0]. rewrite bind_ret_l.
      destruct (len_cases v) as [[n Hn]|Hn]; rewrite Hn;
        [|left; eexists; reflexivity].
      rewrite !bind_ret_l. cbn [len py_range]. rewrite bind_ret_l.
      right. do 3 eexists. apply ticks_run.
    + rewrite bind_ret_l.
      destruct (len_cases x_data) as [[n Hn]|Hn]; rewrite Hn;
        [|left; eexists; reflexivity].
      rewrite bind_ret_l. right. do 3 eexists. apply ticks_run.
  - (* (x, mapping) *)
    destruct (len_cases x_vals) as [[n Hn]|Hn]; rewrite Hn;
      [|left; eexists; reflexivity].
    rewrite bind_ret_l. right. do 3 eexists. apply ticks_run.
  - (* sequence of sequences *)
    destruct (is_none x_data).
    + destruct series as [|v series]; [left; eexists; reflexivity|].
      cbn [getitem0]. rewrite bind_ret_l.
      destruct (len_cases v) as [[n Hn]|Hn]; rewrite Hn;
        [|left; eexists; reflexivity].
      rewrite !bind_ret_l. cbn [len py_range]. rewrite bind_ret_l.
      right. do 3 eexists. apply ticks_run.
    + rewrite bind_ret_l.
      destruct (len_cases x_data) as [[n Hn]|Hn]; rewrite Hn;
        [|left; eexists; reflexivity].
      rewrite bind_ret_l. right. do 3 eexists. apply ticks_run.
Qed.

(** ** Grouped bars *)

Lemma grouped_bars_run x_pos width kw ss :
  grouped_bars x_pos width kw ss =
  match ss with
  | [] => raise ZeroDivisionError
  | _ :: _ =>
      if collides ["label"] kw then raise TypeError
      else (map (grouped_bar x_pos width kw (List.length ss)) (enumerate ss),
            Returned tt)
  end.
Proof.
  unfold grouped_bars. destruct ss as [|s ss]; [reflexivity|].
  set (n := List.length (s :: ss)).
  change (truediv width n) with (@ret Q (width / Qnat n)%Q).
  rewrite bind_ret_l.
  rewrite (for_each_ext _
             (fun x => call ["label"] kw (grouped_bar x_pos width kw n x)))
    by (intros [i [name y]]; reflexivity).
  rewrite for_each_call. destruct (collides ["label"] kw); reflexivity.
Qed.

Lemma Qnat_S k : (Qnat (S k) == Qnat k + 1)%Q.
Proof.
  unfold Qnat. rewrite Nat2Z.inj_succ. unfold Z.succ.
  rewrite inject_Z_plus. reflexivity.
Qed.

Lemma Qnat_S_nonzero k : ~ (Qnat (S k) == 0)%Q.
Proof.
  unfold Qnat, Qeq. simpl. lia.
Qed.

Lemma Qsum_app l1 l2 : (Qsum (l1 ++ l2) == Qsum l1 + Qsum l2)%Q.
Proof.
  induction l1 as [|q l1 IH]; simpl.
  - ring.
  - rewrite IH. ring.
Qed.

Lemma Qsum_repeat q k : (Qsum (repeat q k) == Qnat k * q)%Q.
Proof.
  induction k as [|k IH].
  - simpl. unfold Qnat. simpl. ring.
  - cbn [repeat Qsum fold_right]. fold (Qsum (repeat q k)).
    rewrite IH, Qnat_S. ring.
Qed.

(** The offsets of the first [k] of [S] series add up to
    [k (k - S) / 2] bar widths. *)
Lemma offsets_partial_sum S bw k :
  (Qsum (map (fun i => offset i S bw) (seq 0 k))
   == Qnat k * (Qnat k - Qnat S) / 2 * bw)%Q.
Proof.
  induction k as [|k IH].
  - simpl. unfold Qnat at 1. simpl. field.
  - rewrite seq_S, map_app, Qsum_app, IH. simpl.
    unfold offset. rewrite Qnat_S. field.
Qed.

Lemma offsets_sum_zero S bw :
  (Qsum (map (fun i => offset i S bw) (seq 0 S)) == 0)%Q.
Proof. rewrite offsets_partial_sum. field. Qed.

Lemma bar_widths_grouped ticks W kw S ss i :
  bar_widths (map (grouped_bar ticks W kw S) (enumerate_from i ss))
  = repeat (W / Qnat S)%Q (List.length ss).
Proof.
  revert i; induction ss as [|[name y] ss IH]; intros i; [reflexivity|].
  simpl. f_equal. apply IH.
Qed.

(** A completed grouped call on a multi-series shape has at least one
    series, has set the ticks and has issued the calls of the grouped loop. *)
Lemma grouped_run os data x_data xlabel ylabel title legend save_path figsize style grid
      bar_type W kw ss :
  String.eqb bar_type "stacked" = false ->
  series_of data = Some ss ->
  result (plot_bar os data x_data xlabel ylabel title legend save_path figsize
                   style grid bar_type W kw) = Returned tt ->
  exists n,
    ss <> []
    /\ In (SetXticks (arange n))
          (calls (plot_bar os data x_data xlabel ylabel title legend save_path
                           figsize style grid bar_type W kw))
    /\ draws (calls (plot_bar os data x_data xlabel ylabel title legend save_path
                              figsize style grid bar_type W kw))
       = map (grouped_bar (arange n) W kw (List.length ss)) (enumerate ss).
Proof.
  intros Hg Hss Hret.
  rewrite plot_bar_run in Hret.
  destruct (bar_series_multi data x_data bar_type W kw ss Hss)
    as [[e He] | (x & n & sn & Hrun)].
  { rewrite He in Hret. discriminate Hret. }
  exists n. rewrite draws_plot_bar, plot_bar_run.
  rewrite Hrun in Hret |- *. clear Hrun.
  unfold draw_bars in *. rewrite Hg in *. rewrite grouped_bars_run in *.
  destruct ss as [|s ss]; [discriminate Hret|].
  destruct (collides ["label"] kw); [discriminate Hret|].
  cbn [result calls fst snd] in *.
  split; [discriminate|]. split.
  - apply in_or_app; right; apply in_or_app; left.
    apply in_or_app; right; simpl; auto.
  - rewrite draws_app. cbn [draws filter is_draw app].
    rewrite app_nil_r. apply forallb_filter_id.
    apply forallb_forall. intros e He. apply in_map_iff in He.
    destruct He as [[i [name y]] [<- _]]. reflexivity.
Qed.

Lemma length_arange n : List.length (arange n) = n.
Proof. unfold arange. rewrite length_map, length_seq. reflexivity. Qed.

Lemma nth_arange n j : j < n -> nth j (arange n) 0%Q = inject_Z (Z.of_nat j).
Proof.
  intros Hj. unfold arange.
  rewrite (nth_indep _ 0%Q (Qnat 0)) by (rewrite length_map, length_seq; exact Hj).
  rewrite map_nth, seq_nth by exact Hj. reflexivity.
Qed.

Lemma nth_shift xs off j :
  j < List.length xs -> nth j (shift xs off) 0%Q = (nth j xs 0%Q + off)%Q.
Proof.
  revert j; induction xs as [|x xs IH]; intros j Hj; simpl in *; [lia|].
  destruct j as [|j]; [reflexivity|]. apply IH. lia.
Qed.

Lemma nth_error_enumerate_from {A} (l : list A) : forall k i,
  nth_error (enumerate_from k l) i
  = match nth_error l i with Some a => Some (k + i, a) | None => None end.
Proof.
  induction l as [|a l IH]; intros k [|i]; cbn; try reflexivity.
  - rewrite Nat.add_0_r. reflexivity.
  - rewrite IH. replace (S k + i) with (k + S i) by lia. reflexivity.
Qed.

Lemma length_enumerate_from {A} (l : list A) : forall k,
  List.length (enumerate_from k l) = List.length l.
Proof. induction l as [|a l IH]; intros k; cbn; [reflexivity | rewrite IH; reflexivity]. Qed.

Lemma bar_positions_grouped ticks W kw S ss : forall k,
  bar_positions (map (grouped_bar ticks W kw S) (enumerate_from k ss))
  = map (fun i => shift ticks (offset i S (W / Qnat S)%Q)) (seq k (List.length ss)).
Proof.
  induction ss as [|[name y] ss IH]; intros k; [reflexivity|].
  cbn. f_equal. apply IH.
Qed.

Lemma Qsum_map_ext {A} (f g : A -> Q) (l : list A) :
  (forall a, (f a == g a)%Q) -> (Qsum (map f l) == Qsum (map g l))%Q.
Proof.
  intros H. induction l as [|a l IH]; cbn; [reflexivity|].
  rewrite (H a), IH. reflexivity.
Qed.

(** C3: in grouped mode a completed call on a multi-series shape with [S]
    series and width [W] has set the ticks at [0 .. n-1] and has drawn one
    bar series per input series, in order: series [i] with the bar width
    [W / S], and with its bar at tick [j] placed at that tick's position
    plus [(i - S/2 + 0.5) * (W / S)].  Positions and widths are read off the
    calls.  In the exact arithmetic of the model the [S] widths add up to
    [W] and, at every tick, the [S] distances from the tick add up to zero;
    over binary64 either sum can be off by a rounding error, which the
    lemma on [Binary64] below measures. *)
Theorem grouped_bars_layout os data x_data xlabel ylabel title legend save_path
    figsize style grid bar_type W kw ss :
  String.eqb bar_type "stacked" = false ->
  series_of data = Some ss ->
  result (plot_bar os data x_data xlabel ylabel title legend save_path figsize
                   style grid bar_type W kw) = Returned tt ->
  let t := calls (plot_bar os data x_data xlabel ylabel title legend save_path
                           figsize style grid bar_type W kw) in
  let count := inject_Z (Z.of_nat (List.length ss)) in
  exists n ticks,
    In (SetXticks ticks) t
    /\ List.length ticks = n
    /\ (forall j, j < n -> nth j ticks 0%Q = inject_Z (Z.of_nat j))
    /\ List.length (draws t) = List.length ss
    /\ (forall i e,
          nth_error (draws t) i = Some e ->
          exists name y xs,
            nth_error ss i = Some (name, y)
            /\ e = AxBar xs y (W / count)%Q (Some name) None kw
            /\ List.length xs = n
            /\ forall j, j < n ->
                 nth j xs 0%Q
                 = (nth j ticks 0%Q
                    + (inject_Z (Z.of_nat i) - count / 2 + (1 # 2)) * (W / count))%Q)
    /\ (Qsum (bar_widths (draws t)) == W)%Q
    /\ (forall j, j < n ->
          (Qsum (map (fun xs => nth j xs 0 - nth j ticks 0) (bar_positions (draws t)))
           == 0)%Q).
Proof.
  intros Hg Hss Hret t count.
  destruct (grouped_run os data x_data xlabel ylabel title legend save_path figsize
                        style grid bar_type W kw ss Hg Hss Hret)
    as (n & Hne & Hticks & Hdraws).
  fold t in Hticks, Hdraws.
  exists n, (arange n). rewrite Hdraws.
  split; [exact Hticks|]. split; [apply length_arange|].
  split; [intros j Hj; apply nth_arange; exact Hj|].
  split; [rewrite length_map; apply length_enumerate_from|].
  split; [|split].
  - intros i e He. unfold enumerate in He.
    rewrite nth_error_map, nth_error_enumerate_from in He.
    destruct (nth_error ss i) as [[name y]|] eqn:Hi; [|discriminate He].
    cbn in He. injection He as <-.
    exists name, y, (shift (arange n) (offset i (List.length ss)
                                              (W / Qnat (List.length ss))%Q)).
    split; [reflexivity|]. split; [reflexivity|].
    split; [unfold shift; rewrite length_map; apply length_arange|].
    intros j Hj. rewrite nth_shift by (rewrite length_arange; exact Hj).
    reflexivity.
  - unfold enumerate. rewrite bar_widths_grouped, Qsum_repeat.
    destruct ss as [|s ss]; [congruence|]. cbn [List.length].
    field. apply Qnat_S_nonzero.
  - intros j Hj. unfold enumerate. rewrite bar_positions_grouped, map_map.
    rewrite <- (offsets_sum_zero (List.length ss) (W / Qnat (List.length ss))%Q).
    apply Qsum_map_ext. intros i.
    rewrite nth_shift by (rewrite length_arange; exact Hj). ring.
Qed.

Lemma grouped_bars_layout_witness :
  let ss := [("a", flat [1; 2; 3]%Q); ("b", flat [4; 5; 6]%Q)] in
  let t := calls (plot_bar_default (posix []) (PDict ss)) in
  exists n ticks,
    In (SetXticks ticks) t
    /\ List.length ticks = n
    /\ (forall j, j < n -> nth j ticks 0%Q = inject_Z (Z.of_nat j))
    /\ List.length (draws t) = 2
    /\ (forall i e,
          nth_error (draws t) i = Some e ->
          exists name y xs,
            nth_error ss i = Some (name, y)
            /\ e = AxBar xs y ((8 # 10) / inject_Z 2)%Q (Some name) None []
            /\ List.length xs = n
            /\ forall j, j < n ->
                 nth j xs 0%Q
                 = (nth j ticks 0%Q
                    + (inject_Z (Z.of_nat i) - inject_Z 2 / 2 + (1 # 2))
                      * ((8 # 10) / inject_Z 2))%Q)
    /\ (Qsum (bar_widths (draws t)) == 8 # 10)%Q
    /\ (forall j, j < n ->
          (Qsum (map (fun xs => nth j xs 0 - nth j ticks 0) (bar_positions (draws t)))
           == 0)%Q).
Proof.
  exact (grouped_bars_layout (posix [])
           (PDict [("a", flat [1; 2; 3]%Q); ("b", flat [4; 5; 6]%Q)]) PNone
           "X Axis" "Y Axis" "Bar Plot" LegendNone None (10, 6)%Z "default" true
           "grouped" (8 # 10)%Q []
           [("a", flat [1; 2; 3]%Q); ("b", flat [4; 5; 6]%Q)]
           eq_refl eq_refl eq_refl).
Defined.

(** A grouped run on two series of three values, call by call: bar widths
    0.4, the first series 0.2 to the left of the ticks 0, 1, 2 and the second
    0.2 to the right. *)
Example grouped_two_series :
  map (fun e => match e with
                | AxBar xs _ w _ _ _ => (map Qred xs, Qred w)
                | _ => ([], 0%Q)
                end)
      (draws (calls (plot_bar_default (posix [])
                       (PDict [("a", flat [1; 2; 3]%Q); ("b", flat [4; 5; 6]%Q)]))))
  = [([- (1 # 5); 4 # 5; 9 # 5]%Q, (2 # 5)%Q); ([1 # 5; 6 # 5; 11 # 5]%Q, (2 # 5)%Q)].
Proof. reflexivity. Qed.

(** C3 as stated fails in the arithmetic of the source.  In binary64, with
    the default width 0.8 and three ticks: the eleven bar widths of eleven
    series do not add up to 0.8, neither summed as floats nor as the exact
    numbers they stand for, and eleven times the bar width is not 0.8
    either; the five offsets of five series, summed in series order, give
    5.6e-17 and not zero; and with two series the two bars at tick 2 lie at
    unequal distances from the tick, so the distances do not cancel. *)
Lemma grouped_sums_inexact_in_binary64 :
  let bars := Binary64.grouped_bars (Binary64.arange 3) Binary64.default_width in
  let distance j b := PrimFloat.sub (nth j (fst b) PrimFloat.zero) (Binary64.of_nat j) in
  PrimFloat.eqb (Binary64.sum (map snd (bars 11))) Binary64.default_width = false
  /\ Qeq_bool (Qsum (map Binary64.to_Q (map snd (bars 11))))
              (Binary64.to_Q Binary64.default_width) = false
  /\ PrimFloat.eqb (PrimFloat.mul (Binary64.of_nat 11)
                                  (Binary64.bar_width Binary64.default_width 11))
                   Binary64.default_width = false
  /\ PrimFloat.eqb
       (Binary64.sum
          (map (fun i => Binary64.offset i 5
                           (Binary64.bar_width Binary64.default_width 5))
               (seq 0 5)))
       PrimFloat.zero = false
  /\ PrimFloat.eqb (Binary64.sum (map (distance 2) (bars 2))) PrimFloat.zero = false.
Proof. vm_compute. repeat split. Qed.

(** ** Stacked bars *)

Lemma np_array_cases y :
  (exists a, np_array y = ret a) \/ (exists e, np_array y = raise e).
Proof.
  destruct y; simpl; eauto; destruct (numbers l); eauto;
    destruct (existsb is_nested l); eauto.
Qed.

Lemma iadd_cases b a :
  (exists b', iadd b a = ret b') \/ iadd b a = raise ValueError.
Proof.
  destruct a as [q|[|q [|q' l]]]; simpl; eauto;
    match goal with |- context [if ?c then _ else _] => destruct c end; eauto.
Qed.

Lemma nth_add_scalar q (b : list Q) j :
  j < List.length b ->
  (nth j (map (fun x => x + q) b) 0 == nth j b 0 + nth j (repeat q (List.length b)) 0)%Q.
Proof.
  revert j; induction b as [|x b IH]; intros j Hj; simpl in *; [lia|].
  destruct j as [|j]; [reflexivity|]. apply IH. lia.
Qed.

Lemma add_elementwise_length a : forall b,
  List.length b = List.length a -> List.length (add_elementwise a b) = List.length a.
Proof.
  induction a as [|x a IH]; intros [|y b] H; simpl in *; try lia.
  rewrite IH; lia.
Qed.

Lemma nth_add_elementwise a : forall b j,
  List.length b = List.length a -> j < List.length a ->
  (nth j (add_elementwise a b) 0 == nth j a 0 + nth j b 0)%Q.
Proof.
  induction a as [|x a IH]; intros [|y b] j H Hj; simpl in *; try lia.
  destruct j as [|j]; [reflexivity|]. apply IH; lia.
Qed.

(** [bottom += np.array(y)] adds the heights of [y], position by position. *)
Lemma iadd_heights n b0 y a b' :
  List.length b0 = n ->
  np_array y = ret a -> iadd b0 a = ret b' ->
  exists h, heights n y = Some h
            /\ List.length b' = n
            /\ forall j, j < n -> (nth j b' 0 == nth j b0 0 + nth j h 0)%Q.
Proof.
  intros Hn Ha Hadd. unfold heights. rewrite Ha. unfold ret.
  assert (Hscalar : forall q,
             exists h, Some (repeat q n) = Some h
                       /\ List.length (map (fun b => (b + q)%Q) b0) = n
                       /\ forall j, j < n ->
                            (nth j (map (fun b => (b + q)%Q) b0) 0
                             == nth j b0 0 + nth j h 0)%Q).
  { intros q. eexists. split; [reflexivity|].
    split; [rewrite length_map; exact Hn|].
    intros j Hj. subst n. apply nth_add_scalar; exact Hj. }
  assert (Hvector : forall l,
             iadd b0 (Vector l) =
               (if Nat.eqb (List.length l) (List.length b0)
                then ret (add_elementwise b0 l) else raise ValueError) ->
             iadd b0 (Vector l) = ret b' ->
             exists h, (if Nat.eqb (List.length l) n then Some l else None) = Some h
                       /\ List.length b' = n
                       /\ forall j, j < n -> (nth j b' 0 == nth j b0 0 + nth j h 0)%Q).
  { intros l Hdef Hl. rewrite Hdef in Hl. rewrite Hn in Hl.
    destruct (Nat.eqb (List.length l) n) eqn:E; unfold ret, raise in Hl;
      [|discriminate Hl].
    injection Hl as <-. apply Nat.eqb_eq in E.
    eexists. split; [reflexivity|].
    split; [rewrite add_elementwise_length; lia|].
    intros j Hj. apply nth_add_elementwise; lia. }
  destruct a as [q|[|q [|q' l]]].
  - cbn [iadd] in Hadd. unfold ret in Hadd. injection Hadd as <-. apply Hscalar.
  - apply Hvector; [reflexivity | exact Hadd].
  - cbn [iadd] in Hadd. unfold ret in Hadd. injection Hadd as <-. apply Hscalar.
  - apply Hvector; [reflexivity | exact Hadd].
Qed.

Lemma stacked_bars_spec x_pos W kw n : forall ss b0,
  List.length b0 = n ->
  (forall k e,
      nth_error (calls (stacked_bars x_pos W kw ss b0)) k = Some e ->
      exists name y b rows,
        nth_error ss k = Some (name, y)
        /\ e = AxBar x_pos y W (Some name) (Some b) kw
        /\ map (heights n) (map snd (firstn k ss)) = map Some rows
        /\ List.length b = n
        /\ forall j, j < n -> (nth j b 0 == nth j b0 0 + Qsum (column j rows))%Q)
  /\ (forall bf,
      result (stacked_bars x_pos W kw ss b0) = Returned bf ->
      List.length (calls (stacked_bars x_pos W kw ss b0)) = List.length ss
      /\ exists rows,
        map (heights n) (map snd ss) = map Some rows
        /\ List.length bf = n
        /\ forall j, j < n -> (nth j bf 0 == nth j b0 0 + Qsum (column j rows))%Q).
Proof.
  induction ss as [|[name y] rest IH]; intros b0 Hb0.
  - split.
    + intros [|k] e H; discriminate H.
    + intros bf H. injection H as <-. split; [reflexivity|].
      exists []. split; [reflexivity|]. split; [exact Hb0|].
      intros j _. simpl. ring.
  - cbn [stacked_bars]. unfold call.
    destruct (collides ["label"; "bottom"] kw).
    { split; [intros [|k] e H; discriminate H | intros bf H; discriminate H]. }
    rewrite bind_emit_l.
    assert (Hfirst : forall e b rows,
               e = AxBar x_pos y W (Some name) (Some b0) kw -> b = b0 -> rows = [] ->
               map (heights n) (map snd (@firstn (string * pyval) 0 ((name, y) :: rest)))
               = map Some rows
               /\ List.length b = n
               /\ forall j, j < n -> (nth j b 0 == nth j b0 0 + Qsum (column j rows))%Q).
    { intros e b rows _ -> ->. split; [reflexivity|]. split; [exact Hb0|].
      intros j _. simpl. ring. }
    destruct (np_array_cases y) as [[a Ha]|[ex Ha]]; rewrite Ha.
    2:{ split.
        - intros [|[|k]] e H; try discriminate H. injection H as <-.
          exists name, y, b0, []. split; [reflexivity|]. split; [reflexivity|].
          eapply Hfirst; reflexivity.
        - intros bf H; discriminate H. }
    rewrite bind_ret_l.
    destruct (iadd_cases b0 a) as [[b' Hadd]|Hadd]; rewrite Hadd.
    2:{ split.
        - intros [|[|k]] e H; try discriminate H. injection H as <-.
          exists name, y, b0, []. split; [reflexivity|]. split; [reflexivity|].
          eapply Hfirst; reflexivity.
        - intros bf H; discriminate H. }
    rewrite bind_ret_l.
    destruct (iadd_heights n b0 y a b' Hb0 Ha Hadd) as (h & Hh & Hb' & Hsum).
    destruct (IH b' Hb') as [IHk IHf]. clear IH.
    split.
    + intros [|k] e H.
      * injection H as <-.
        exists name, y, b0, []. split; [reflexivity|]. split; [reflexivity|].
        eapply Hfirst; reflexivity.
      * cbn [calls fst nth_error] in H.
        destruct (IHk k e H) as (name' & y' & b & rows & Hnth & He & Hrows & Hlen & Hb).
        exists name', y', b, (h :: rows).
        split; [exact Hnth|]. split; [exact He|].
        split; [cbn [firstn map snd]; rewrite Hh, Hrows; reflexivity|].
        split; [exact Hlen|].
        intros j Hj. rewrite (Hb j Hj), (Hsum j Hj). simpl. ring.
    + intros bf H. cbn [result snd] in H.
      destruct (IHf bf H) as (Hcount & rows & Hrows & Hlen & Hb).
      split; [cbn [calls fst List.length]; f_equal; exact Hcount|].
      exists (h :: rows).
      split; [cbn [map snd]; rewrite Hh, Hrows; reflexivity|].
      split; [exact Hlen|].
      intros j Hj. rewrite (Hb j Hj), (Hsum j Hj). simpl. ring.
Qed.

Lemma then_ret_tt {A} (m : M A) :
  (m ;; ret tt) =
  (calls m, match result m with Returned _ => Returned tt | Raised e => Raised e end).
Proof. destruct m as [t [a|e]]; simpl; rewrite ?app_nil_r; reflexivity. Qed.

(** Every call of the stacked loop is [ax.bar] at [x_pos] with the full
    [width], a label, a bottom and the keyword options. *)
Lemma stacked_bars_events x_pos W kw ss b0 e :
  In e (calls (stacked_bars x_pos W kw ss b0)) ->
  exists name y b, e = AxBar x_pos y W (Some name) (Some b) kw.
Proof.
  intros Hin. apply In_nth_error in Hin. destruct Hin as [k Hk].
  destruct (stacked_bars_spec x_pos W kw (List.length b0) ss b0 eq_refl) as [H _].
  destruct (H k e Hk) as (name & y & b & rows & _ & He & _).
  eauto.
Qed.

Lemma draws_stacked_bars x_pos W kw ss b0 :
  draws (calls (stacked_bars x_pos W kw ss b0)) = calls (stacked_bars x_pos W kw ss b0).
Proof.
  apply forallb_filter_id, forallb_forall. intros e He.
  apply stacked_bars_events in He. destruct He as (name & y & b & ->). reflexivity.
Qed.

(** The draw calls of a stacked run on a multi-series shape: none, when
    sizing the x-axis failed, or those of the stacked loop started from
    [np.zeros]. *)
Lemma stacked_run os data x_data xlabel ylabel title legend save_path figsize style grid
      W kw ss :
  series_of data = Some ss ->
  let run := plot_bar os data x_data xlabel ylabel title legend save_path figsize
                      style grid "stacked" W kw in
  (draws (calls run) = [] /\ exists e, result run = Raised e)
  \/ exists x_pos,
       let loop := stacked_bars x_pos W kw ss (zeros (List.length x_pos)) in
       draws (calls run) = calls loop
       /\ result run = match result loop with
                       | Returned _ => Returned tt
                       | Raised e => Raised e
                       end.
Proof.
  intros Hss run. subst run. rewrite draws_plot_bar, plot_bar_run.
  destruct (bar_series_multi data x_data "stacked" W kw ss Hss)
    as [[e He] | (x & n & sn & Hrun)].
  - left. rewrite He. split; [reflexivity | eexists; reflexivity].
  - right. exists (arange n). cbv zeta. rewrite Hrun. clear Hrun.
    unfold draw_bars. cbn [String.eqb Ascii.eqb Bool.eqb]. rewrite then_ret_tt.
    pose proof (draws_stacked_bars (arange n) W kw ss
                  (zeros (List.length (arange n)))) as Hd.
    set (loop := stacked_bars (arange n) W kw ss (zeros (List.length (arange n))))
      in *.
    clearbody loop. destruct loop as [t [bf|e]]; cbn [result calls fst snd] in *.
    + rewrite draws_app, Hd. cbn [draws filter is_draw app]. rewrite app_nil_r.
      split; reflexivity.
    + split; [exact Hd | reflexivity].
Qed.

Lemma nth_zeros n j : nth j (zeros n) 0%Q = 0%Q.
Proof. apply nth_repeat. Qed.

Lemma numbers_flat qs : numbers (map PNum qs) = Some qs.
Proof. induction qs as [|q qs IH]; simpl; [reflexivity | rewrite IH; reflexivity]. Qed.

Lemma np_array_flat y row : flat_values y row -> np_array y = ret (Vector row).
Proof.
  intros [r|r|r]; cbn [np_array]; rewrite ?numbers_flat; reflexivity.
Qed.

Lemma nth_plus_scalar q (b : list Q) j :
  j < List.length b ->
  nth j (map (fun x => (x + q)%Q) b) 0%Q = (nth j b 0%Q + q)%Q.
Proof.
  revert j; induction b as [|x b IH]; intros j Hj; simpl in *; [lia|].
  destruct j as [|j]; [reflexivity|]. apply IH. lia.
Qed.

Lemma nth_plus_elementwise a : forall b j,
  List.length b = List.length a -> j < List.length a ->
  nth j (add_elementwise a b) 0%Q = (nth j a 0%Q + nth j b 0%Q)%Q.
Proof.
  induction a as [|x a IH]; intros [|y b] j H Hj; simpl in *; try lia.
  destruct j as [|j]; [reflexivity|]. apply IH; lia.
Qed.

(** [bottom += np.array(row)] for a row as long as [bottom]: every position
    gets the row's own value added, by one addition. *)
Lemma iadd_flat n b0 row b' :
  List.length b0 = n -> List.length row = n ->
  iadd b0 (Vector row) = ret b' ->
  forall j, j < n -> nth j b' 0%Q = (nth j b0 0%Q + nth j row 0%Q)%Q.
Proof.
  intros Hb0 Hrow Hadd j Hj.
  destruct row as [|q [|q' row]].
  - simpl in Hrow. lia.
  - cbn [iadd] in Hadd. unfold ret in Hadd. injection Hadd as <-.
    simpl in Hrow. subst n. assert (j = 0) by lia. subst j.
    rewrite nth_plus_scalar by lia. reflexivity.
  - assert (Hdef : iadd b0 (Vector (q :: q' :: row))
                   = if Nat.eqb (List.length (q :: q' :: row)) (List.length b0)
                     then ret (add_elementwise b0 (q :: q' :: row))
                     else raise ValueError) by reflexivity.
    rewrite Hdef, Hrow, Hb0, Nat.eqb_refl in Hadd.
    unfold ret in Hadd. injection Hadd as <-.
    apply nth_plus_elementwise; lia.
Qed.

(** The stacked loop on flat numeric series: the bottom handed to the k-th
    bar call is, position by position, the starting bottom plus the values
    of the series before it, added in series order. *)
Lemma stacked_bars_flat x_pos W kw n : forall ss rows b0,
  List.length b0 = n ->
  Forall2 flat_values (map snd ss) rows ->
  (forall k e,
      nth_error (calls (stacked_bars x_pos W kw ss b0)) k = Some e ->
      exists name y b,
        nth_error ss k = Some (name, y)
        /\ e = AxBar x_pos y W (Some name) (Some b) kw
        /\ List.length b = n
        /\ (Forall (fun row => List.length row = n) (firstn k rows) ->
            forall j, j < n ->
                      nth j b 0%Q = fold_left Qplus (column j (firstn k rows)) (nth j b0 0%Q)))
  /\ (forall bottom,
         result (stacked_bars x_pos W kw ss b0) = Returned bottom ->
         List.length bottom = n
         /\ (Forall (fun row => List.length row = n) rows ->
             forall j, j < n ->
                       nth j bottom 0%Q = fold_left Qplus (column j rows) (nth j b0 0%Q))).
Proof.
  induction ss as [|[name y] rest IH]; intros rows b0 Hb0 Hflat.
  - assert (rows = []) by (inversion Hflat; reflexivity). subst rows. split.
    + intros [|k] e H; discriminate H.
    + intros bottom H. injection H as <-. split; [exact Hb0|]. intros _ j _. reflexivity.
  - cbn [map snd] in Hflat.
    destruct rows as [|row rows']; [inversion Hflat|].
    apply Forall2_cons_iff in Hflat. destruct Hflat as [Hy Hrest].
    assert (Hfirst : forall b,
               b = b0 ->
               List.length b = n
               /\ (Forall (fun row => List.length row = n) (firstn 0 (row :: rows')) ->
                   forall j, j < n ->
                             nth j b 0%Q
                             = fold_left Qplus (column j (firstn 0 (row :: rows')))
                                         (nth j b0 0%Q))).
    { intros b ->. split; [exact Hb0|]. intros _ j _. reflexivity. }
    cbn [stacked_bars]. unfold call.
    destruct (collides ["label"; "bottom"] kw).
    { split; [intros [|k] e H; discriminate H | intros bottom H; discriminate H]. }
    rewrite bind_emit_l, (np_array_flat y row Hy), bind_ret_l.
    destruct (iadd_cases b0 (Vector row)) as [[b' Hadd]|Hadd]; rewrite Hadd.
    { rewrite bind_ret_l.
      destruct (iadd_heights n b0 y (Vector row) b' Hb0 (np_array_flat y row Hy) Hadd)
        as (_ & _ & Hb' & _).
      destruct (IH rows' b' Hb' Hrest) as [IHk IHf]. clear IH.
      split.
      - intros [|k] e H.
        + injection H as <-. exists name, y, b0.
          split; [reflexivity|]. split; [reflexivity|]. apply Hfirst. reflexivity.
        + cbn [calls fst nth_error] in H.
          destruct (IHk k e H) as (name' & y' & b & Hnth & He & Hlen & Hb).
          exists name', y', b. split; [exact Hnth|]. split; [exact He|].
          split; [exact Hlen|].
          intros Hrows j Hj. cbn [firstn] in Hrows.
          apply Forall_cons_iff in Hrows. destruct Hrows as [Hr Hrs].
          rewrite (Hb Hrs j Hj), (iadd_flat n b0 row b' Hb0 Hr Hadd j Hj).
          reflexivity.
      - intros bottom H. cbn [result snd] in H.
        destruct (IHf bottom H) as (Hlen & Hb).
        split; [exact Hlen|].
        intros Hrows j Hj.
        apply Forall_cons_iff in Hrows. destruct Hrows as [Hr Hrs].
        rewrite (Hb Hrs j Hj), (iadd_flat n b0 row b' Hb0 Hr Hadd j Hj).
        reflexivity. }
    split.
    + intros [|[|k]] e H; try discriminate H. injection H as <-.
      exists name, y, b0. split; [reflexivity|]. split; [reflexivity|].
      apply Hfirst. reflexivity.
    + intros bottom H; discriminate H.
Qed.

(** C4: in stacked mode on a multi-series shape whose series are flat
    numeric sequences, the k-th bar call carries a [bottom] with one entry
    per x position, and when the series before it have one value per
    position, that entry is the sum of THEIR values at that position, added
    in series order from zero (so the first bottom is all zero) -- whatever
    happens later in the call.  When the call completes, every series has
    been drawn and [bottom] has reached the position-wise sum of all
    series. *)
Theorem stacked_bottom_is_running_sum os data x_data xlabel ylabel title legend
    save_path figsize style grid W kw ss rows :
  series_of data = Some ss ->
  Forall2 flat_values (map snd ss) rows ->
  let run := plot_bar os data x_data xlabel ylabel title legend save_path figsize
                      style grid "stacked" W kw in
  (forall k e,
      nth_error (draws (calls run)) k = Some e ->
      exists x_pos name y b,
        nth_error ss k = Some (name, y)
        /\ e = AxBar x_pos y W (Some name) (Some b) kw
        /\ List.length b = List.length x_pos
        /\ (Forall (fun row => List.length row = List.length x_pos) (firstn k rows) ->
            forall j, j < List.length x_pos ->
                      nth j b 0%Q = running_sum j (firstn k rows)))
  /\ (result run = Returned tt ->
      exists x_pos bottom,
        draws (calls run)
        = calls (stacked_bars x_pos W kw ss (zeros (List.length x_pos)))
        /\ result (stacked_bars x_pos W kw ss (zeros (List.length x_pos)))
           = Returned bottom
        /\ List.length (draws (calls run)) = List.length ss
        /\ List.length bottom = List.length x_pos
        /\ (Forall (fun row => List.length row = List.length x_pos) rows ->
            forall j, j < List.length x_pos ->
                      nth j bottom 0%Q = running_sum j rows)).
Proof.
  intros Hss Hflat run. unfold running_sum.
  destruct (stacked_run os data x_data xlabel ylabel title legend save_path figsize
                        style grid W kw ss Hss)
    as [[Hd [e He]] | [x_pos [Hd Hr]]]; fold run in Hd |- *.
  - fold run in He. rewrite Hd, He. split.
    + intros [|k] e' H; discriminate H.
    + intros H; discriminate H.
  - fold run in Hr. rewrite Hd, Hr.
    destruct (stacked_bars_flat x_pos W kw (List.length x_pos) ss rows
                (zeros (List.length x_pos)) (repeat_length _ _) Hflat) as [Hk Hf].
    split.
    + intros k e H.
      destruct (Hk k e H) as (name & y & b & Hnth & He & Hlen & Hb).
      exists x_pos, name, y, b. split; [exact Hnth|]. split; [exact He|].
      split; [exact Hlen|].
      intros Hrows j Hj. rewrite (Hb Hrows j Hj), nth_zeros. reflexivity.
    + intros H.
      destruct (result (stacked_bars x_pos W kw ss (zeros (List.length x_pos))))
        as [bf|e] eqn:E; [|discriminate H].
      destruct (Hf bf eq_refl) as (Hlen & Hb).
      destruct (stacked_bars_spec x_pos W kw (List.length x_pos) ss
                  (zeros (List.length x_pos)) (repeat_length _ _)) as [_ Hcount].
      rewrite E in Hcount. destruct (Hcount bf eq_refl) as [Hcount' _].
      exists x_pos, bf. split; [reflexivity|]. split; [exact E|].
      split; [exact Hcount'|]. split; [exact Hlen|].
      intros Hrows j Hj. rewrite (Hb Hrows j Hj), nth_zeros. reflexivity.
Qed.

(** ** Which calls a dispatch can issue *)

Section Only.
Context (P : event -> Prop).

Lemma only_ret {A} (a : A) : only P (ret a).
Proof. constructor. Qed.

Lemma only_raise {A} (e : exn) : only P (@raise A e).
Proof. constructor. Qed.

Lemma only_emit e : P e -> only P (emit e).
Proof. intros H; repeat constructor; exact H. Qed.

Lemma only_call explicit kw e : P e -> only P (call explicit kw e).
Proof.
  unfold call; destruct (collides explicit kw);
    [intros _; constructor | apply only_emit].
Qed.

Lemma only_bind {A B} (m : M A) (f : A -> M B) :
  only P m -> (forall a, only P (f a)) -> only P (bind m f).
Proof.
  unfold only. intros Hm Hf. rewrite bind_calls_result.
  destruct (result m) as [a|e]; cbn [calls fst]; [|exact Hm].
  apply Forall_app; split; [exact Hm | apply Hf].
Qed.

Lemma only_for_each {A} (xs : list A) (body : A -> M unit) :
  (forall x, only P (body x)) -> only P (for_each xs body).
Proof.
  intros H; induction xs as [|x xs IH]; [constructor|].
  apply only_bind; [apply H | intros _; exact IH].
Qed.

Lemma only_len v : only P (len v).
Proof. destruct v; constructor. Qed.

Lemma only_getitem0 {A} (l : list A) : only P (getitem0 l).
Proof. destruct l; constructor. Qed.

Lemma only_truediv w n : only P (truediv w n).
Proof. destruct n; constructor. Qed.

Lemma only_np_array y : only P (np_array y).
Proof.
destruct y; try constructor; simpl; destruct (numbers l); try constructor;
  destruct (existsb is_nested l); constructor.
Qed.

Lemma only_iadd b a : only P (iadd b a).
Proof.
  destruct (iadd_cases b a) as [[b' H]|H]; rewrite H; constructor.
Qed.
End Only.

Lemma only_impl {A} (P Q : event -> Prop) (m : M A) :
  (forall e, P e -> Q e) -> only P m -> only Q m.
Proof. intros H. apply Forall_impl, H. Qed.

Ltac only_step :=
  first
    [ apply only_ret | apply only_raise | apply only_len | apply only_getitem0
    | apply only_truediv | apply only_np_array | apply only_iadd
    | apply only_emit; solve [reflexivity | exact I | eauto]
    | apply only_call; solve [reflexivity | exact I | eauto]
    | apply only_for_each; intros
    | apply only_bind; [|intros]
    | match goal with
      | |- only _ (if ?c then _ else _) => destruct c
      | |- only _ (let '(_, _) := ?p in _) => destruct p
      | |- only _ (match ?p with (_, _) => _ end) => destruct p
      end ].

Lemma line_series_events data x_data kw :
  only (fun e => is_line_event e = true) (line_series data x_data kw).
Proof.
  unfold line_series. destruct (classify data); repeat only_step.
Qed.

Lemma stacked_bars_only x_pos W kw ss b0 :
  only (fun e => is_bar e = true) (stacked_bars x_pos W kw ss b0).
Proof.
  revert b0; induction ss as [|[name y] ss IH]; intros b0; cbn [stacked_bars];
    repeat only_step. apply IH.
Qed.

Lemma draw_bars_only bar_type x_pos W kw ss :
  only (fun e => is_bar e = true) (draw_bars bar_type x_pos W kw ss).
Proof.
  unfold draw_bars, grouped_bars.
  destruct (String.eqb bar_type "stacked"); repeat only_step.
  apply stacked_bars_only.
Qed.

Lemma is_bar_bar_event e : is_bar e = true -> is_bar_event e = true.
Proof. destruct e; intros H; try discriminate H; reflexivity. Qed.

Lemma bar_series_events data x_data bar_type W kw :
  only (fun e => is_bar_event e = true) (bar_series data x_data bar_type W kw).
Proof.
  unfold bar_series.
  destruct (classify data);
    repeat first
      [ eapply only_impl; [exact is_bar_bar_event | apply draw_bars_only]
      | only_step ].
Qed.

Lemma stacked_bottom_is_running_sum_witness :
  let ss := [("a", flat [1; 2; 3]%Q); ("b", PTuple (map PNum [4; 5; 6]%Q));
             ("c", PArray [7; 8; 9]%Q)] in
  let rows := [[1; 2; 3]; [4; 5; 6]; [7; 8; 9]]%Q in
  let run := plot_bar (posix []) (PDict ss) PNone "X Axis" "Y Axis" "Bar Plot"
                      LegendNone None (10, 6)%Z "default" true "stacked"
                      (8 # 10)%Q [] in
  (forall k e,
      nth_error (draws (calls run)) k = Some e ->
      exists x_pos name y b,
        nth_error ss k = Some (name, y)
        /\ e = AxBar x_pos y (8 # 10)%Q (Some name) (Some b) []
        /\ List.length b = List.length x_pos
        /\ (Forall (fun row => List.length row = List.length x_pos) (firstn k rows) ->
            forall j, j < List.length x_pos ->
                      nth j b 0%Q = running_sum j (firstn k rows)))
  /\ exists x_pos bottom,
      draws (calls run)
      = calls (stacked_bars x_pos (8 # 10)%Q [] ss (zeros (List.length x_pos)))
      /\ result (stacked_bars x_pos (8 # 10)%Q [] ss (zeros (List.length x_pos)))
         = Returned bottom
      /\ List.length (draws (calls run)) = List.length ss
      /\ List.length bottom = List.length x_pos
      /\ (Forall (fun row => List.length row = List.length x_pos) rows ->
          forall j, j < List.length x_pos ->
                    nth j bottom 0%Q = running_sum j rows).
Proof.
  cbv zeta.
  destruct (stacked_bottom_is_running_sum (posix [])
              (PDict [("a", flat [1; 2; 3]%Q); ("b", PTuple (map PNum [4; 5; 6]%Q));
                      ("c", PArray [7; 8; 9]%Q)]) PNone
              "X Axis" "Y Axis" "Bar Plot" LegendNone None (10, 6)%Z "default" true
              (8 # 10)%Q []
              [("a", flat [1; 2; 3]%Q); ("b", PTuple (map PNum [4; 5; 6]%Q));
               ("c", PArray [7; 8; 9]%Q)]
              [[1; 2; 3]; [4; 5; 6]; [7; 8; 9]]%Q eq_refl)
    as [Hk Hf].
  - repeat constructor.
  - split; [exact Hk | exact (Hf eq_refl)].
Defined.

(** A stacked run on two series of three values, call by call. *)
Example stacked_two_series :
  draws (calls (plot_bar (posix [])
                  (PDict [("a", flat [1; 2; 3]%Q); ("b", flat [4; 5; 6]%Q)])
                  PNone "X Axis" "Y Axis" "Bar Plot" LegendNone None (10, 6)%Z
                  "default" true "stacked" (8 # 10)%Q []))
  = [AxBar [0; 1; 2]%Q (flat [1; 2; 3]%Q) (8 # 10)%Q (Some "a")
           (Some [0; 0; 0]%Q) [];
     AxBar [0; 1; 2]%Q (flat [4; 5; 6]%Q) (8 # 10)%Q (Some "b")
           (Some [1; 2; 3]%Q) []].
Proof. reflexivity. Qed.

Lemma bar_widths_uniform W (t : trace) :
  (forall e, In e t -> exists x y l b k, e = AxBar x y W l b k) ->
  bar_widths t = repeat W (List.length t).
Proof.
  induction t as [|e t IH]; intros H; [reflexivity|].
  destruct (H e (or_introl eq_refl)) as (x & y & l & b & k & ->).
  simpl. f_equal. apply IH. intros e' He'. apply H. right; exact He'.
Qed.

(** C10: in stacked mode on a multi-series shape every bar call is given
    the full [width] as its bar width, never a share of it; a completed call
    has drawn one such bar per series. *)
Theorem stacked_bars_full_width os data x_data xlabel ylabel title legend
    save_path figsize style grid W kw ss :
  series_of data = Some ss ->
  let run := plot_bar os data x_data xlabel ylabel title legend save_path figsize
                      style grid "stacked" W kw in
  Forall (fun w => w = W) (bar_widths (draws (calls run)))
  /\ (result run = Returned tt ->
      bar_widths (draws (calls run)) = repeat W (List.length ss)).
Proof.
  intros Hss run.
  destruct (stacked_run os data x_data xlabel ylabel title legend save_path figsize
                        style grid W kw ss Hss)
    as [[Hd [e He]] | [x_pos [Hd Hr]]]; fold run in Hd |- *.
  - fold run in He. rewrite Hd, He. split; [constructor | intros H; discriminate H].
  - fold run in Hr. rewrite Hd, Hr.
    assert (Hw : bar_widths (calls (stacked_bars x_pos W kw ss
                                                 (zeros (List.length x_pos))))
                 = repeat W (List.length
                               (calls (stacked_bars x_pos W kw ss
                                                    (zeros (List.length x_pos)))))).
    { apply bar_widths_uniform. intros e He.
      apply stacked_bars_events in He. destruct He as (name & y & b & ->).
      eauto 6. }
    rewrite Hw. split.
    + apply Forall_forall. intros w Hin. apply repeat_spec in Hin. exact Hin.
    + intros H.
      destruct (result (stacked_bars x_pos W kw ss (zeros (List.length x_pos))))
        as [bf|e] eqn:E; [|discriminate H].
      destruct (stacked_bars_spec x_pos W kw (List.length x_pos) ss
                  (zeros (List.length x_pos)) (repeat_length _ _)) as [_ Hf].
      rewrite E in Hf.
      destruct (Hf bf eq_refl) as [Hcount _]. rewrite Hcount. reflexivity.
Qed.

Lemma stacked_bars_full_width_witness :
  let data := PList [flat [1; 2; 3]; flat [4; 5; 6]; flat [7; 8; 9]]%Q in
  let run := plot_bar (posix []) data PNone "X Axis" "Y Axis" "Bar Plot"
                      LegendNone None (10, 6)%Z "default" true "stacked"
                      (8 # 10)%Q [] in
  result run = Returned tt
  /\ Forall (fun w => w = (8 # 10)%Q) (bar_widths (draws (calls run)))
  /\ (result run = Returned tt ->
      bar_widths (draws (calls run)) = repeat (8 # 10)%Q 3).
Proof.
  cbv zeta. split; [reflexivity|].
  exact (stacked_bars_full_width (posix [])
           (PList [flat [1; 2; 3]; flat [4; 5; 6]; flat [7; 8; 9]]%Q) PNone
           "X Axis" "Y Axis" "Bar Plot" LegendNone None (10, 6)%Z "default" true
           (8 # 10)%Q []
           (combine (auto_names [flat [1; 2; 3]; flat [4; 5; 6]; flat [7; 8; 9]]%Q)
                    [flat [1; 2; 3]; flat [4; 5; 6]; flat [7; 8; 9]]%Q)
           eq_refl).
Defined.

(** ** A run as setup, dispatch and finishing *)

Lemma plot_line_calls os data x_data xlabel ylabel title legend save_path figsize style grid kw :
  calls (plot_line os data x_data xlabel ylabel title legend save_path figsize
                   style grid kw)
  = [StyleUse style; Subplots figsize] ++ calls (line_series data x_data kw)
    ++ match result (line_series data x_data kw) with
       | Returned sn => finishing os None xlabel ylabel title legend save_path grid sn
       | Raised _ => []
       end.
Proof.
  rewrite plot_line_run. destruct (result (line_series data x_data kw));
    cbn [calls fst]; rewrite ?app_nil_r; reflexivity.
Qed.

Lemma plot_bar_calls os data x_data xlabel ylabel title legend save_path figsize style grid
      bar_type W kw :
  calls (plot_bar os data x_data xlabel ylabel title legend save_path figsize
                  style grid bar_type W kw)
  = [StyleUse style; Subplots figsize] ++ calls (bar_series data x_data bar_type W kw)
    ++ match result (bar_series data x_data bar_type W kw) with
       | Returned sn =>
           finishing os (Some "y") xlabel ylabel title legend save_path grid sn
       | Raised _ => []
       end.
Proof.
  rewrite plot_bar_run. destruct (result (bar_series data x_data bar_type W kw));
    cbn [calls fst]; rewrite ?app_nil_r; reflexivity.
Qed.

Lemma plot_line_result os data x_data xlabel ylabel title legend save_path figsize style grid kw :
  result (plot_line os data x_data xlabel ylabel title legend save_path figsize
                    style grid kw)
  = match result (line_series data x_data kw) with
    | Returned _ => Returned tt
    | Raised e => Raised e
    end.
Proof.
  rewrite plot_line_run. destruct (result (line_series data x_data kw)); reflexivity.
Qed.

Lemma plot_bar_result os data x_data xlabel ylabel title legend save_path figsize style grid
      bar_type W kw :
  result (plot_bar os data x_data xlabel ylabel title legend save_path figsize
                   style grid bar_type W kw)
  = match result (bar_series data x_data bar_type W kw) with
    | Returned _ => Returned tt
    | Raised e => Raised e
    end.
Proof.
  rewrite plot_bar_run. destruct (result (bar_series data x_data bar_type W kw));
    reflexivity.
Qed.






(** ** The two pair shapes and [x_data] *)





(** ** Saving *)

Lemma file_events_app t1 t2 : file_events (t1 ++ t2) = file_events t1 ++ file_events t2.
Proof. apply filter_app. Qed.

Lemma file_events_finishing os axis xlabel ylabel title legend save_path grid sn :
  file_events (finishing os axis xlabel ylabel title legend save_path grid sn)
  = calls (save_figure os save_path).
Proof.
  unfold finishing. rewrite !file_events_app.
  unfold file_events at 5. rewrite <- save_figure_calls.
  destruct legend as [|[|]|l], sn, grid; cbn; rewrite app_nil_r; reflexivity.
Qed.

Lemma file_events_none (P : event -> bool) (t : trace) :
  (forall e, P e = true -> is_file_event e = false) ->
  Forall (fun e => P e = true) t -> file_events t = [].
Proof.
  intros HP. induction 1 as [|e t He _ IH]; [reflexivity|].
  unfold file_events in *. simpl. rewrite (HP e He). exact IH.
Qed.

Lemma file_events_plot_line os data x_data xlabel ylabel title legend save_path figsize
      style grid kw :
  file_events (calls (plot_line os data x_data xlabel ylabel title legend save_path
                                figsize style grid kw))
  = match result (line_series data x_data kw) with
    | Returned _ => calls (save_figure os save_path)
    | Raised _ => []
    end.
Proof.
  rewrite plot_line_calls, !file_events_app.
  rewrite (file_events_none is_line_event (calls (line_series data x_data kw)))
    by (try apply line_series_events; intros []; intros H; try discriminate H; reflexivity).
  destruct (result (line_series data x_data kw));
    [apply file_events_finishing | reflexivity].
Qed.

Lemma file_events_plot_bar os data x_data xlabel ylabel title legend save_path figsize
      style grid bar_type W kw :
  file_events (calls (plot_bar os data x_data xlabel ylabel title legend save_path
                               figsize style grid bar_type W kw))
  = match result (bar_series data x_data bar_type W kw) with
    | Returned _ => calls (save_figure os save_path)
    | Raised _ => []
    end.
Proof.
  rewrite plot_bar_calls, !file_events_app.
  rewrite (file_events_none is_bar_event
             (calls (bar_series data x_data bar_type W kw)))
    by (try apply bar_series_events; intros []; intros H; try discriminate H; reflexivity).
  destruct (result (bar_series data x_data bar_type W kw));
    [apply file_events_finishing | reflexivity].
Qed.

Lemma save_figure_missing_parent os path :
  dirname os path <> "" ->
  path_exists os (dirname os path) = false ->
  calls (save_figure os (Some path)) = saved_with_parent os path.
Proof.
  intros Hdir Hmissing.
  destruct path as [|c s]; [elim Hdir; apply dirname_empty|].
  unfold save_figure. rewrite Hmissing.
  apply String.eqb_neq in Hdir. rewrite Hdir. reflexivity.
Qed.

(** C8: a completed call whose [save_path] lies in a directory that does
    not exist has issued, in this order and nothing else of the kind,
    [os.makedirs] on the parent, [savefig] at 300 DPI with a tight bounding
    box, and the confirmation line naming the path; with [save_path] unset a
    call creates no directory, writes no file and prints nothing. *)
Theorem save_creates_parent_then_writes os data x_data xlabel ylabel title legend
    figsize style grid bar_type W kw path :
  dirname os path <> "" ->
  path_exists os (dirname os path) = false ->
  (result (plot_line os data x_data xlabel ylabel title legend (Some path) figsize
                     style grid kw) = Returned tt ->
   file_events (calls (plot_line os data x_data xlabel ylabel title legend
                                 (Some path) figsize style grid kw))
   = saved_with_parent os path)
  /\ (result (plot_bar os data x_data xlabel ylabel title legend (Some path) figsize
                       style grid bar_type W kw) = Returned tt ->
      file_events (calls (plot_bar os data x_data xlabel ylabel title legend
                                   (Some path) figsize style grid bar_type W kw))
      = saved_with_parent os path)
  /\ file_events (calls (plot_line os data x_data xlabel ylabel title legend None
                                   figsize style grid kw)) = []
  /\ file_events (calls (plot_bar os data x_data xlabel ylabel title legend None
                                  figsize style grid bar_type W kw)) = [].
Proof.
  intros Hdir Hmissing.
  rewrite plot_line_result, plot_bar_result.
  rewrite !file_events_plot_line, !file_events_plot_bar.
  rewrite (save_figure_missing_parent os path Hdir Hmissing).
  repeat split.
  - destruct (result (line_series data x_data kw)); [reflexivity | discriminate].
  - destruct (result (bar_series data x_data bar_type W kw));
      [reflexivity | discriminate].
  - destruct (result (line_series data x_data kw)); reflexivity.
  - destruct (result (bar_series data x_data bar_type W kw)); reflexivity.
Qed.

Lemma save_creates_parent_then_writes_witness :
  let data := PDict [("a", flat [1; 2; 3]%Q); ("b", flat [4; 5; 6]%Q)] in
  dirname (posix []) "out/sub/chart.png" = "out/sub"
  /\ path_exists (posix []) "out/sub" = false
  /\ file_events (calls (plot_line (posix []) data PNone "X Axis" "Y Axis" "Line Plot"
                                   LegendNone (Some "out/sub/chart.png") (10, 6)%Z
                                   "default" true []))
     = [Makedirs "out/sub"; Savefig "out/sub/chart.png" 300 "tight";
        PrintLine "Image saved to: out/sub/chart.png"].
Proof.
  cbv zeta. split; [reflexivity|]. split; [reflexivity|].
  destruct (save_creates_parent_then_writes (posix [])
              (PDict [("a", flat [1; 2; 3]%Q); ("b", flat [4; 5; 6]%Q)]) PNone
              "X Axis" "Y Axis" "Line Plot" LegendNone (10, 6)%Z "default" true
              "grouped" (8 # 10)%Q [] "out/sub/chart.png")
    as (Hl & _).
  - discriminate.
  - reflexivity.
  - exact (Hl eq_refl).
Defined.

(** ** Legend *)

Lemma legend_calls_app t1 t2 : legend_calls (t1 ++ t2) = legend_calls t1 ++ legend_calls t2.
Proof. apply filter_app. Qed.

Lemma legend_shown_calls t :
  legend_shown t = match legend_calls t with [] => false | _ :: _ => true end.
Proof.
  induction t as [|e t IH]; [reflexivity|].
  unfold legend_shown, legend_calls in *. simpl. destruct (is_legend e); auto.
Qed.

Lemma legend_calls_save_figure os p : legend_calls (calls (save_figure os p)) = [].
Proof.
  destruct p as [[|c s]|]; try reflexivity.
  unfold save_figure.
  destruct (negb (dirname os (String c s) =? "")%string
            && negb (path_exists os (dirname os (String c s)))); reflexivity.
Qed.

Lemma legend_calls_finishing os axis xlabel ylabel title legend save_path grid sn :
  legend_calls (finishing os axis xlabel ylabel title legend save_path grid sn)
  = calls (handle_legend legend sn).
Proof.
  unfold finishing. rewrite !legend_calls_app, legend_calls_save_figure.
  destruct legend as [|[|]|l], sn, grid; reflexivity.
Qed.

Lemma legend_calls_none (P : event -> bool) (t : trace) :
  (forall e, P e = true -> is_legend e = false) ->
  Forall (fun e => P e = true) t -> legend_calls t = [].
Proof.
  intros HP. induction 1 as [|e t He _ IH]; [reflexivity|].
  unfold legend_calls in *. simpl. rewrite (HP e He). exact IH.
Qed.

Lemma result_bind_inv {A B} (m : M A) (f : A -> M B) (b : B) :
  result (bind m f) = Returned b ->
  exists a, result m = Returned a /\ result (f a) = Returned b.
Proof.
  rewrite bind_calls_result. destruct (result m) as [a|e]; cbn [result snd].
  - eauto.
  - discriminate.
Qed.

Ltac peel H :=
  repeat (let a := fresh "a" in
          let Ha := fresh "Ha" in
          apply result_bind_inv in H; destruct H as (a & Ha & H));
  try (injection H as <-).

(** What the bar dispatch leaves in [series_names]. *)
Lemma bar_series_names data x_data bar_type W kw sn :
  result (bar_series data x_data bar_type W kw) = Returned sn ->
  match sn with Some _ => true | None => false end = multi_series data.
Proof.
  unfold bar_series, multi_series, series_of.
  destruct (classify data); intros H; peel H; reflexivity.
Qed.

Lemma legend_calls_bar_series data x_data bar_type W kw :
  legend_calls (calls (bar_series data x_data bar_type W kw)) = [].
Proof.
  apply (legend_calls_none is_bar_event); [|apply bar_series_events].
  intros []; intros H; try discriminate H; reflexivity.
Qed.

(** The line dispatch shows a legend itself in the sequence-of-sequences
    branch and leaves [series_names] set in the two mapping branches. *)
Lemma line_series_legend data x_data kw sn :
  result (line_series data x_data kw) = Returned sn ->
  match classify data with
  | NamedMapping _ | PairXMapping _ _ =>
      legend_calls (calls (line_series data x_data kw)) = [] /\ sn <> None
  | SeqOfSeqs _ =>
      legend_calls (calls (line_series data x_data kw)) = [PltLegend] /\ sn = None
  | PairXY _ _ | SingleSeq _ =>
      legend_calls (calls (line_series data x_data kw)) = [] /\ sn = None
  end.
Proof.
  pose proof (line_series_events data x_data kw) as Hev.
  unfold line_series in *.
  assert (Hdraw : forall (t : trace),
             Forall (fun e => is_draw e = true) t -> legend_calls t = []).
  { intros t. apply (legend_calls_none is_draw t).
    intros []; intros H; try discriminate H; reflexivity. }
  destruct (classify data) as [d|x_vals d|x_vals y_vals|series|single]; intros H.
  - split; [|peel H; discriminate].
    apply Hdraw. repeat only_step.
  - split; [|peel H; discriminate].
    apply Hdraw. repeat only_step.
  - split; [|peel H; reflexivity].
    apply Hdraw. repeat only_step.
  - split; [|peel H; reflexivity].
    apply result_bind_inv in H. destruct H as (x & Hx & H).
    rewrite bind_calls_result, Hx.
    assert (Hpure : calls (if is_none x_data
                           then first <- getitem0 series ;;
                                n <- len first ;; ret (py_range n)
                           else ret x_data) = []).
    { destruct (is_none x_data); [|reflexivity].
      destruct series as [|v series]; [reflexivity|].
      cbn [getitem0]. rewrite bind_ret_l.
      destruct (len_cases v) as [[n Hn]|Hn]; rewrite Hn; reflexivity. }
    cbn [calls fst] in Hpure |- *. rewrite Hpure. cbn [app].
    rewrite (for_each_ext _ (fun s => emit (PltPlot x (snd s) (series_label (fst s)))))
      by (intros [i y]; reflexivity).
    rewrite for_each_emit. cbn [bind emit ret calls fst app].
    rewrite legend_calls_app.
    rewrite (legend_calls_none is_draw); [reflexivity| |].
    + intros []; intros H'; try discriminate H'; reflexivity.
    + apply Forall_forall. intros e He. apply in_map_iff in He.
      destruct He as (s & <- & _). reflexivity.
  - split; [|peel H; reflexivity].
    apply Hdraw. repeat only_step.
Qed.

Lemma legend_calls_plot_line os data x_data xlabel ylabel title legend save_path figsize
      style grid kw sn :
  result (line_series data x_data kw) = Returned sn ->
  legend_calls (calls (plot_line os data x_data xlabel ylabel title legend save_path
                                 figsize style grid kw))
  = legend_calls (calls (line_series data x_data kw))
    ++ calls (handle_legend legend sn).
Proof.
  intros H. rewrite plot_line_calls, H, !legend_calls_app, legend_calls_finishing.
  reflexivity.
Qed.

Lemma legend_calls_plot_bar os data x_data xlabel ylabel title legend save_path figsize
      style grid bar_type W kw sn :
  result (bar_series data x_data bar_type W kw) = Returned sn ->
  legend_calls (calls (plot_bar os data x_data xlabel ylabel title legend save_path
                                figsize style grid bar_type W kw))
  = calls (handle_legend legend sn).
Proof.
  intros H. rewrite plot_bar_calls, H, !legend_calls_app, legend_calls_finishing.
  rewrite legend_calls_bar_series. reflexivity.
Qed.

(** C5 as stated fails on a mapping with a single named series: with
    [legend] unset the legend is displayed although only one named series
    exists. *)
Lemma legend_shown_for_single_named_series :
  ~ legend_iff_several_named
      (calls (plot_line_default (posix []) (PDict [("a", flat [1; 2; 3]%Q)]))).
Proof.
  unfold legend_iff_several_named. intros [H _].
  specialize (H eq_refl). vm_compute in H. lia.
Qed.

(** C5, amended: for a completed call of either renderer, with [legend]
    unset a legend is displayed exactly when [data] has one of the three
    multi-series shapes (mapping, (x, mapping) pair, sequence of sequences),
    however many series it holds; with [legend] explicitly true a legend is
    displayed; and with a list of labels the last legend call is
    [ax.legend(labels)], which relabels the drawn series positionally. *)
Theorem legend_policy os data x_data xlabel ylabel title save_path figsize style grid
    bar_type W kw :
  let line legend := plot_line os data x_data xlabel ylabel title legend save_path
                               figsize style grid kw in
  let bar legend := plot_bar os data x_data xlabel ylabel title legend save_path
                             figsize style grid bar_type W kw in
  (result (line LegendNone) = Returned tt ->
   legend_shown (calls (line LegendNone)) = multi_series data)
  /\ (result (bar LegendNone) = Returned tt ->
      legend_shown (calls (bar LegendNone)) = multi_series data)
  /\ (result (line (LegendBool true)) = Returned tt ->
      legend_shown (calls (line (LegendBool true))) = true)
  /\ (result (bar (LegendBool true)) = Returned tt ->
      legend_shown (calls (bar (LegendBool true))) = true)
  /\ (forall labels,
         result (line (LegendList labels)) = Returned tt ->
         final_legend (calls (line (LegendList labels)))
         = Some (AxLegend (Some labels)))
  /\ (forall labels,
         result (bar (LegendList labels)) = Returned tt ->
         final_legend (calls (bar (LegendList labels)))
         = Some (AxLegend (Some labels))).
Proof.
  cbv zeta.
  assert (Hline : forall legend,
             result (plot_line os data x_data xlabel ylabel title legend save_path
                               figsize style grid kw) = Returned tt ->
             exists sn L,
               legend_calls (calls (plot_line os data x_data xlabel ylabel title
                                              legend save_path figsize style grid kw))
               = L ++ calls (handle_legend legend sn)
               /\ (L = [] \/ L = [PltLegend])
               /\ match L ++ calls (handle_legend LegendNone sn) with
                  | [] => false
                  | _ :: _ => true
                  end = multi_series data).
  { intros legend H. rewrite plot_line_result in H.
    destruct (result (line_series data x_data kw)) as [sn|e] eqn:E;
      [|discriminate H].
    exists sn, (legend_calls (calls (line_series data x_data kw))).
    split; [apply legend_calls_plot_line; exact E|].
    pose proof (line_series_legend data x_data kw sn E) as HL.
    unfold multi_series, series_of.
    destruct (classify data); destruct HL as [-> Hsn]; (split; [auto|]);
      destruct sn; try congruence; reflexivity. }
  assert (Hbar : forall legend,
             result (plot_bar os data x_data xlabel ylabel title legend save_path
                              figsize style grid bar_type W kw) = Returned tt ->
             exists sn,
               legend_calls (calls (plot_bar os data x_data xlabel ylabel title
                                             legend save_path figsize style grid
                                             bar_type W kw))
               = calls (handle_legend legend sn)
               /\ match sn with Some _ => true | None => false end
                  = multi_series data).
  { intros legend H. rewrite plot_bar_result in H.
    destruct (result (bar_series data x_data bar_type W kw)) as [sn|e] eqn:E;
      [|discriminate H].
    exists sn. split; [apply legend_calls_plot_bar; exact E|].
    apply (bar_series_names _ _ _ _ _ _ E). }
  repeat split.
  - intros H. destruct (Hline _ H) as (sn & L & HL & _ & Hm).
    rewrite legend_shown_calls, HL. exact Hm.
  - intros H. destruct (Hbar _ H) as (sn & HL & Hm).
    rewrite legend_shown_calls, HL, <- Hm. destruct sn; reflexivity.
  - intros H. destruct (Hline _ H) as (sn & L & HL & [-> | ->] & _);
      rewrite legend_shown_calls, HL; destruct sn; reflexivity.
  - intros H. destruct (Hbar _ H) as (sn & HL & _).
    rewrite legend_shown_calls, HL. destruct sn; reflexivity.
  - intros labels H. destruct (Hline _ H) as (sn & L & HL & [-> | ->] & _);
      unfold final_legend; fold (legend_calls
        (calls (plot_line os data x_data xlabel ylabel title (LegendList labels)
                          save_path figsize style grid kw)));
      rewrite HL; destruct sn; reflexivity.
  - intros labels H. destruct (Hbar _ H) as (sn & HL & _).
    unfold final_legend; fold (legend_calls
        (calls (plot_bar os data x_data xlabel ylabel title (LegendList labels)
                         save_path figsize style grid bar_type W kw))).
    rewrite HL; destruct sn; reflexivity.
Qed.

Lemma legend_policy_witness :
  let one := PDict [("a", flat [1; 2; 3]%Q)] in
  let line legend := plot_line (posix []) one PNone "X Axis" "Y Axis" "Line Plot"
                               legend None (10, 6)%Z "default" true [] in
  result (line LegendNone) = Returned tt
  /\ multi_series one = true
  /\ legend_shown (calls (line LegendNone)) = true
  /\ final_legend (calls (line (LegendList ["first"])))
     = Some (AxLegend (Some ["first"])).
Proof.
  cbv zeta.
  destruct (legend_policy (posix []) (PDict [("a", flat [1; 2; 3]%Q)]) PNone
              "X Axis" "Y Axis" "Line Plot" None (10, 6)%Z "default" true
              "grouped" (8 # 10)%Q [])
    as (Hnone & _ & _ & _ & Hlist & _).
  split; [reflexivity|]. split; [reflexivity|].
  split; [exact (Hnone eq_refl) | exact (Hlist ["first"] eq_refl)].
Defined.

(** ** Well-formed mappings raise no exception *)

Lemma iadd_same_length b0 qs :
  List.length qs = List.length b0 -> exists b', iadd b0 (Vector qs) = ret b'.
Proof.
  intros H. destruct qs as [|q [|q' l]]; cbn [iadd]; try (eexists; reflexivity).
  - rewrite H, Nat.eqb_refl. eexists; reflexivity.
  - rewrite H, Nat.eqb_refl. eexists; reflexivity.
Qed.

Lemma stacked_bars_completes x_pos W kw n : forall ss b0,
  List.length b0 = n ->
  collides ["label"; "bottom"] kw = false ->
  Forall (flat_series n) ss ->
  exists bottom, result (stacked_bars x_pos W kw ss b0) = Returned bottom.
Proof.
  induction ss as [|[name y] ss IH]; intros b0 Hb0 Hkw Hss.
  - eexists; reflexivity.
  - inversion Hss as [|s ss' [qs [Hy Hlen]] Hrest]; subst s ss'.
    cbn [snd] in Hy. subst y.
    cbn [stacked_bars]. unfold call. rewrite Hkw, bind_emit_l. cbn [result snd].
    assert (Ha : np_array (flat qs) = ret (Vector qs))
      by (unfold flat; cbn [np_array]; rewrite numbers_flat; reflexivity).
    rewrite Ha, bind_ret_l.
    destruct (iadd_same_length b0 qs) as [b' Hadd]; [congruence|].
    rewrite Hadd, bind_ret_l.
    destruct (iadd_heights n b0 (flat qs) (Vector qs) b' Hb0 Ha Hadd)
      as (_ & _ & Hb' & _).
    apply IH; assumption.
Qed.

Lemma collides_label kw :
  collides ["label"; "bottom"] kw = false -> collides ["label"] kw = false.
Proof.
  unfold collides. induction (map fst kw) as [|k ks IH]; [reflexivity|].
  cbn [existsb]. intros H.
  apply orb_false_elim in H. destruct H as [Hk Hks].
  apply orb_false_elim in Hk. destruct Hk as [Hk _].
  rewrite Hk. cbn [orb]. apply IH. exact Hks.
Qed.

(** X19: on a non-empty mapping of equally long flat numeric series, with
    the x-axis left to the indices and no keyword option named [label] or
    [bottom], [plot_bar] raises no exception of its own in either bar
    mode. *)
Lemma plot_bar_mapping_completes os d n xlabel ylabel title legend save_path figsize
      style grid bar_type W kw :
  d <> [] ->
  Forall (flat_series n) d ->
  collides ["label"; "bottom"] kw = false ->
  result (plot_bar os (PDict d) PNone xlabel ylabel title legend save_path figsize
                   style grid bar_type W kw) = Returned tt.
Proof.
  intros Hd Hflat Hkw. rewrite plot_bar_result.
  unfold bar_series. cbn [classify is_none].
  destruct d as [|[name y] d]; [congruence|]. clear Hd.
  inversion Hflat as [|s ss [qs [Hy Hlen]] Hrest]; subst s ss.
  cbn [snd] in Hy. subst y.
  cbn [map snd getitem0]. rewrite bind_ret_l. cbn [flat len]. rewrite !bind_ret_l.
  cbn [py_range len]. rewrite bind_ret_l, ticks_run.
  rewrite !length_map, length_seq, Hlen.
  assert (Hdraw : exists u, result (draw_bars bar_type (arange n) W kw
                                               ((name, flat qs) :: d))
                            = Returned u).
  { unfold draw_bars. destruct (String.eqb bar_type "stacked").
    - rewrite then_ret_tt. cbn [result snd].
      destruct (stacked_bars_completes (arange n) W kw n
                  ((name, flat qs) :: d)
                  (zeros (List.length (arange n)))) as [b Hb]; try assumption.
      + unfold zeros, arange. rewrite repeat_length, length_map, length_seq.
        reflexivity.
      + fold (result (stacked_bars (arange n) W kw ((name, flat qs) :: d)
                                   (zeros (List.length (arange n))))).
        rewrite Hb. eexists; reflexivity.
    - rewrite grouped_bars_run, (collides_label kw Hkw). eexists; reflexivity. }
  destruct Hdraw as [u ->]. reflexivity.
Qed.

(** ** Where the keyword options do arrive *)

Lemma given_forwards kw (t : trace) : Forall (given kw) t -> forwards kw t.
Proof.
  unfold forwards, draws. induction 1 as [|e t He _ IH]; [constructor|].
  destruct e; cbn [filter is_draw]; try exact IH;
    [constructor; [exact He | exact IH] | destruct He
    | constructor; [exact He | exact IH]].
Qed.

Lemma stacked_bars_given x_pos W kw ss b0 :
  only (given kw) (stacked_bars x_pos W kw ss b0).
Proof.
  revert b0; induction ss as [|[name y] ss IH]; intros b0; cbn [stacked_bars];
    repeat only_step. apply IH.
Qed.

Lemma bar_series_given data x_data bar_type W kw :
  only (given kw) (bar_series data x_data bar_type W kw).
Proof.
  unfold bar_series, draw_bars, grouped_bars.
  destruct (classify data);
    repeat first [apply stacked_bars_given | only_step].
Qed.

Lemma line_series_given data x_data kw :
  (forall series, classify data <> SeqOfSeqs series) ->
  only (given kw) (line_series data x_data kw).
Proof.
  unfold line_series. intros H.
  destruct (classify data) as [| | |series|]; try solve [repeat only_step].
  elim (H series). reflexivity.
Qed.

(** X20: [plot_bar] forwards the keyword options on every input, and
    [plot_line] on every input that is not a sequence of sequences. *)
Lemma kwargs_forwarded os data x_data xlabel ylabel title legend save_path figsize style
      grid bar_type W kw :
  forwards kw (calls (plot_bar os data x_data xlabel ylabel title legend save_path
                               figsize style grid bar_type W kw))
  /\ ((forall series, classify data <> SeqOfSeqs series) ->
      forwards kw (calls (plot_line os data x_data xlabel ylabel title legend
                                    save_path figsize style grid kw))).
Proof.
  unfold forwards. rewrite draws_plot_bar, draws_plot_line. split.
  - apply given_forwards, bar_series_given.
  - intros H. apply given_forwards, line_series_given, H.
Qed.

(** * Further properties of the renderers *)

(** ** Kinds of calls *)

Lemma filter_disjoint (P Q : event -> bool) (t : trace) :
  (forall e, Q e = true -> P e = false) ->
  Forall (fun e => Q e = true) t -> filter P t = [].
Proof.
  intros H. induction 1 as [|e t He _ IH]; [reflexivity|].
  simpl. rewrite (H e He). exact IH.
Qed.

Lemma filter_all (P : event -> bool) (t : trace) :
  Forall (fun e => P e = true) t -> filter P t = t.
Proof.
  intros H. apply forallb_filter_id, forallb_forall.
  apply Forall_forall. exact H.
Qed.

Lemma save_figure_finishing os p :
  Forall (fun e => is_finishing_event e = true) (calls (save_figure os p)).
Proof.
  destruct p as [[|c s]|]; try constructor.
  unfold save_figure.
  destruct (negb (dirname os (String c s) =? "")%string
            && negb (path_exists os (dirname os (String c s))));
    repeat constructor.
Qed.

Lemma finishing_events os axis xlabel ylabel title legend save_path grid sn :
  Forall (fun e => is_finishing_event e = true)
         (finishing os axis xlabel ylabel title legend save_path grid sn).
Proof.
  unfold finishing.
  repeat (apply Forall_app; split); try apply save_figure_finishing;
    try solve [repeat constructor].
  - destruct legend as [|[|]|l], sn; repeat constructor.
  - destruct grid; repeat constructor.
Qed.



(** ** The x-axis a dispatch sizes *)

(** Sizing the x-axis from the first series issues no call: it gives
    [x_data] when that is given, else the index range of the first series,
    or raises. *)
Lemma first_length_pure (first_of : list pyval) (x_data : pyval) :
  let m := if is_none x_data
           then first <- getitem0 first_of ;; n <- len first ;; ret (py_range n)
           else ret x_data in
  (exists x, m = ret x
             /\ if is_none x_data
                then exists v rest n,
                       first_of = v :: rest /\ len v = ret n /\ x = py_range n
                else x = x_data)
  \/ (exists e, m = raise e).
Proof.
  cbv zeta. destruct (is_none x_data); [|left; eexists; split; reflexivity].
  destruct first_of as [|v rest]; [right; eexists; reflexivity|].
  cbn [getitem0]. rewrite bind_ret_l.
  destruct (len_cases v) as [[n Hn]|Hn]; rewrite Hn.
  - rewrite bind_ret_l. left; eexists; split; [reflexivity|].
    exists v, rest, n. repeat split. exact Hn.
  - right; eexists; reflexivity.
Qed.

Lemma len_py_range n : len (py_range n) = ret n.
Proof. unfold py_range, len. rewrite length_map, length_seq. reflexivity. Qed.

(** From [len(x)] on, a completed bar branch has drawn bars and then set
    one tick per element of [x], labelled with [x]. *)
Lemma bar_tail_completed (x : pyval) (draw : nat -> M unit)
      (sn0 r : option (list string)) :
  (forall n, only (fun e => is_bar e = true) (draw n)) ->
  let tail := n <- len x ;;
              draw n ;;
              emit (SetXticks (arange n)) ;;
              emit (SetXticklabels x) ;;
              ret sn0 in
  result tail = Returned r ->
  exists n,
    len x = ret n
    /\ result (draw n) = Returned tt
    /\ calls tail = calls (draw n) ++ [SetXticks (arange n); SetXticklabels x]
    /\ r = sn0.
Proof.
  intros Hdraw tail. subst tail.
  destruct (len_cases x) as [[n Hn]|Hn]; rewrite Hn; [|intros H; discriminate H].
  rewrite bind_ret_l. intros H. exists n. split; [reflexivity|].
  destruct (draw n) as [t [[]|e]]; [|discriminate H].
  cbn in H |- *. injection H as <-. repeat split.
Qed.

Lemma bar_tail_failed (x : pyval) (draw : nat -> M unit)
      (sn0 : option (list string)) e :
  (forall n, only (fun e => is_bar e = true) (draw n)) ->
  let tail := n <- len x ;;
              draw n ;;
              emit (SetXticks (arange n)) ;;
              emit (SetXticklabels x) ;;
              ret sn0 in
  result tail = Raised e ->
  Forall (fun e => is_bar e = true) (calls tail).
Proof.
  intros Hdraw tail. subst tail.
  destruct (len_cases x) as [[n Hn]|Hn]; rewrite Hn; [|intros _; constructor].
  rewrite bind_ret_l. intros H. specialize (Hdraw n). unfold only in Hdraw.
  destruct (draw n) as [t [[]|e']]; [discriminate H|].
  exact Hdraw.
Qed.

Lemma map_fst_combine {A B} (l1 : list A) : forall (l2 : list B),
  List.length l1 = List.length l2 -> map fst (combine l1 l2) = l1.
Proof.
  induction l1 as [|a l1 IH]; intros [|b l2] H; simpl in *; try congruence.
  f_equal. apply IH. congruence.
Qed.

Lemma map_snd_combine {A B} (l1 : list A) : forall (l2 : list B),
  List.length l1 = List.length l2 -> map snd (combine l1 l2) = l2.
Proof.
  induction l1 as [|a l1 IH]; intros [|b l2] H; simpl in *; try congruence.
  f_equal. apply IH. congruence.
Qed.

(** The shape of a completed bar dispatch: bars, then one tick per label. *)
Lemma bar_series_completed data x_data bar_type W kw sn :
  result (bar_series data x_data bar_type W kw) = Returned sn ->
  exists labels n bars,
    len labels = ret n
    /\ calls (bar_series data x_data bar_type W kw)
       = bars ++ [SetXticks (arange n); SetXticklabels labels]
    /\ match series_of data with
       | Some ss =>
           bars = calls (draw_bars bar_type (arange n) W kw ss)
           /\ result (draw_bars bar_type (arange n) W kw ss) = Returned tt
           /\ sn = Some (map fst ss)
       | None => exists y, bars = [AxBar (arange n) y W None None kw] /\ sn = None
       end
    /\ match classify data with
       | PairXMapping x _ | PairXY x _ => labels = x
       | NamedMapping d =>
           if is_none x_data
           then exists k v rest,
                  d = (k, v) :: rest /\ len v = ret n /\ labels = py_range n
           else labels = x_data
       | SeqOfSeqs series =>
           if is_none x_data
           then exists v rest,
                  series = v :: rest /\ len v = ret n /\ labels = py_range n
           else labels = x_data
       | SingleSeq s =>
           if is_none x_data
           then len s = ret n /\ labels = py_range n
           else labels = x_data
       end.
Proof.
  unfold bar_series, series_of.
  destruct (classify data) as [d|x_vals d|x_vals y_vals|series|single]; intros H.
  - (* mapping *)
    destruct (first_length_pure (map snd d) x_data) as [[x [Hx Hax]]|[e He]];
      [rewrite Hx in H |- * | rewrite He in H; discriminate H].
    rewrite bind_ret_l in H |- *.
    apply (bar_tail_completed x (fun n => draw_bars bar_type (arange n) W kw d))
      in H; [|intros n; apply draw_bars_only].
    destruct H as (n & Hn & Hdraw & Hcalls & ->).
    exists x, n, (calls (draw_bars bar_type (arange n) W kw d)).
    split; [exact Hn|]. split; [exact Hcalls|]. split; [repeat split; exact Hdraw|].
    revert Hax; destruct (is_none x_data); intros Hax; [|exact Hax].
    destruct Hax as (v & rest & n0 & Hd & Hv & ->).
    rewrite len_py_range in Hn. injection Hn as <-.
    destruct d as [|[k v'] d']; [discriminate Hd|].
    cbn [map snd] in Hd. injection Hd as <- <-.
    exists k, v', d'. repeat split. exact Hv.
  - (* (x, mapping) *)
    apply (bar_tail_completed x_vals
             (fun n => draw_bars bar_type (arange n) W kw d)) in H;
      [|intros n; apply draw_bars_only].
    destruct H as (n & Hn & Hdraw & Hcalls & ->).
    exists x_vals, n, (calls (draw_bars bar_type (arange n) W kw d)).
    repeat split; assumption.
  - (* (x, y) *)
    apply (bar_tail_completed x_vals
             (fun n => call [] kw (AxBar (arange n) y_vals W None None kw))) in H;
      [|intros n; repeat only_step].
    destruct H as (n & Hn & Hdraw & Hcalls & ->).
    exists x_vals, n, [AxBar (arange n) y_vals W None None kw].
    rewrite call_nil in Hcalls.
    split; [exact Hn|]. split; [exact Hcalls|]. split; [eexists; split; reflexivity|].
    reflexivity.
  - (* sequence of sequences *)
    destruct (first_length_pure series x_data) as [[x [Hx Hax]]|[e He]];
      [rewrite Hx in H |- * | rewrite He in H; discriminate H].
    rewrite bind_ret_l in H |- *.
    apply (bar_tail_completed x
             (fun n => draw_bars bar_type (arange n) W kw
                                 (combine (auto_names series) series)))
      in H; [|intros n; apply draw_bars_only].
    destruct H as (n & Hn & Hdraw & Hcalls & ->).
    exists x, n, (calls (draw_bars bar_type (arange n) W kw
                                   (combine (auto_names series) series))).
    split; [exact Hn|]. split; [exact Hcalls|].
    split.
    { repeat split; [exact Hdraw|].
      f_equal. unfold auto_names. symmetry. apply map_fst_combine.
      rewrite length_map, length_seq. reflexivity. }
    revert Hax; destruct (is_none x_data); intros Hax; [|exact Hax].
    destruct Hax as (v & rest & n0 & Hd & Hv & ->).
    rewrite len_py_range in Hn. injection Hn as <-.
    exists v, rest. repeat split; assumption.
  - (* single sequence *)
    assert (Hres : (exists x, (if is_none x_data
                               then n <- len single ;; ret (py_range n)
                               else ret x_data) = ret x
                              /\ if is_none x_data
                                 then exists n, len single = ret n /\ x = py_range n
                                 else x = x_data)
                   \/ (exists e, (if is_none x_data
                                  then n <- len single ;; ret (py_range n)
                                  else ret x_data) = raise e)).
    { destruct (is_none x_data); [|left; eexists; split; reflexivity].
      destruct (len_cases single) as [[n Hn]|Hn]; rewrite Hn.
      - rewrite bind_ret_l. left. eexists. split; [reflexivity|].
        exists n. split; reflexivity.
      - right. eexists; reflexivity. }
    destruct Hres as [[x [Hx Hax]]|[e He]];
      [rewrite Hx in H |- * | rewrite He in H; discriminate H].
    rewrite bind_ret_l in H |- *.
    apply (bar_tail_completed x
             (fun n => call [] kw (AxBar (arange n) single W None None kw))) in H;
      [|intros n; repeat only_step].
    destruct H as (n & Hn & Hdraw & Hcalls & ->).
    exists x, n, [AxBar (arange n) single W None None kw].
    rewrite call_nil in Hcalls.
    split; [exact Hn|]. split; [exact Hcalls|]. split; [eexists; split; reflexivity|].
    revert Hax; destruct (is_none x_data); intros Hax; [|exact Hax].
    destruct Hax as (n0 & Hs & ->).
    rewrite len_py_range in Hn. injection Hn as <-. split; [exact Hs | reflexivity].
Qed.

(** ** The branches of [plot_line], call by call *)

Lemma map_enumerate_from {A B} (g : A -> B) (l : list A) : forall i,
  map (fun p => g (snd p)) (enumerate_from i l) = map g l.
Proof.
  induction l as [|a l IH]; intros i; [reflexivity|].
  simpl. f_equal. apply IH.
Qed.

Lemma line_series_mapping data x_data kw d :
  classify data = NamedMapping d ->
  line_series data x_data kw =
  if collides ["label"] kw
  then if match d with [] => false | _ :: _ => true end
       then raise TypeError else ret (Some (map fst d))
  else (labelled_lines (given_x x_data) kw d, Returned (Some (map fst d))).
Proof.
  intros H. unfold line_series. rewrite H. cbv beta iota.
  rewrite (for_each_ext _
             (fun p => call ["label"] kw
                            (AxPlot (given_x x_data) (snd (snd p))
                                    (Some (fst (snd p))) kw)))
    by (intros [i [name y]]; unfold given_x; destruct (is_none x_data); reflexivity).
  rewrite for_each_call. unfold enumerate.
  destruct (collides ["label"] kw); [destruct d; reflexivity|].
  rewrite (map_enumerate_from
             (fun s => AxPlot (given_x x_data) (snd s) (Some (fst s)) kw) d 0).
  cbn [bind ret]. rewrite app_nil_r. reflexivity.
Qed.

Lemma line_series_pair_mapping data x_data kw x_vals d :
  classify data = PairXMapping x_vals d ->
  line_series data x_data kw =
  if collides ["label"] kw
  then if match d with [] => false | _ :: _ => true end
       then raise TypeError else ret (Some (map fst d))
  else (labelled_lines (Some x_vals) kw d, Returned (Some (map fst d))).
Proof.
  intros H. unfold line_series. rewrite H. cbv beta iota.
  rewrite (for_each_ext _
             (fun s => call ["label"] kw
                            (AxPlot (Some x_vals) (snd s) (Some (fst s)) kw)))
    by (intros [name y]; reflexivity).
  rewrite for_each_call.
  destruct (collides ["label"] kw); [destruct d; reflexivity|].
  cbn [bind ret]. rewrite app_nil_r. reflexivity.
Qed.

Lemma classify_seq_of_seqs data series :
  classify data = SeqOfSeqs series -> forallb isinstance_seq series = true.
Proof.
  destruct data as [ | q | s | l | l | d | l]; try discriminate;
    (destruct l as [|a [|b [|c l]]];
     [ intros H; injection H as <-; reflexivity
     | cbn; destruct (isinstance_seq a) eqn:E; cbn; intros H; try discriminate H;
       injection H as <-; cbn; rewrite E; reflexivity
     | destruct b; cbn; intros H; discriminate H
     | destruct b; cbn -[forallb];
       match goal with
       | |- context [if forallb isinstance_seq ?xs then _ else _] =>
           destruct (forallb isinstance_seq xs) eqn:E
       end; intros H; try discriminate H; injection H as <-; exact E ]).
Qed.

Lemma len_seq v : isinstance_seq v = true -> len v = ret (List.length (elements v)).
Proof. destruct v; intros H; try discriminate H; reflexivity. Qed.

(** The x-axis of the sequence-of-sequences branch of [plot_line]. *)
Lemma line_series_seq data x_data kw series :
  classify data = SeqOfSeqs series ->
  line_series data x_data kw =
  match series with
  | [] =>
      if is_none x_data then raise IndexError
      else ([PltLegend], Returned None)
  | first :: _ =>
      (series_lines (if is_none x_data
                     then py_range (List.length (elements first))
                     else x_data) series
       ++ [PltLegend], Returned None)
  end.
Proof.
  intros H. pose proof (classify_seq_of_seqs data series H) as Hall.
  unfold line_series. rewrite H. cbv beta iota.
  assert (Hloop : forall x,
             (for_each (enumerate series)
                       (fun '(i, y_values) => emit (PltPlot x y_values (series_label i))) ;;
              emit PltLegend ;; ret (@None (list string)))
             = (series_lines x series ++ [PltLegend], Returned None)).
  { intros x.
    rewrite (for_each_ext _ (fun s => emit (PltPlot x (snd s) (series_label (fst s)))))
      by (intros [i y]; reflexivity).
    rewrite for_each_emit. reflexivity. }
  destruct series as [|first rest].
  - destruct (is_none x_data); [reflexivity|].
    rewrite bind_ret_l. apply Hloop.
  - destruct (is_none x_data).
    + cbn [getitem0]. rewrite bind_ret_l.
      cbn [forallb] in Hall. apply andb_prop in Hall. destruct Hall as [Hfirst _].
      rewrite (len_seq first Hfirst), !bind_ret_l. apply Hloop.
    + rewrite bind_ret_l. apply Hloop.
Qed.

Lemma line_series_single data x_data kw s :
  classify data = SingleSeq s ->
  line_series data x_data kw = ([AxPlot (given_x x_data) s None kw], Returned None).
Proof.
  intros H. unfold line_series, given_x. rewrite H. cbv beta iota.
  destruct (is_none x_data); cbn [negb]; rewrite call_nil; reflexivity.
Qed.

Lemma is_none_eq v : is_none v = true <-> v = PNone.
Proof. destruct v; split; intros H; try discriminate H; reflexivity. Qed.

Lemma draws_labelled_lines x kw ss : draws (labelled_lines x kw ss) = labelled_lines x kw ss.
Proof.
  apply filter_all, Forall_forall. intros e He.
  apply in_map_iff in He. destruct He as (s & <- & _). reflexivity.
Qed.

Lemma draws_series_lines x series : draws (series_lines x series) = series_lines x series.
Proof.
  apply filter_all, Forall_forall. intros e He.
  apply in_map_iff in He. destruct He as (s & <- & _). reflexivity.
Qed.

(** ** [plot_line] on a mapping *)

(** X1: given a mapping (and no keyword option named [label]), [plot_line]
    raises no exception of its own and draws one line per entry, in
    insertion order, labelled with the key, every one against [x_data] when
    it is given and against its own indices otherwise. *)
Theorem plot_line_mapping_in_order os d x_data xlabel ylabel title legend save_path
    figsize style grid kw :
  collides ["label"] kw = false ->
  let run := plot_line os (PDict d) x_data xlabel ylabel title legend save_path
                       figsize style grid kw in
  result run = Returned tt
  /\ draws (calls run)
     = map (fun s => AxPlot (given_x x_data) (snd s) (Some (fst s)) kw) d
  /\ named_series (calls run) = map fst d.
Proof.
  intros Hkw run. subst run. unfold named_series.
  rewrite plot_line_result, draws_plot_line.
  rewrite (line_series_mapping (PDict d) x_data kw d eq_refl), Hkw.
  cbn [result calls fst snd]. rewrite draws_labelled_lines.
  split; [reflexivity|]. split; [reflexivity|].
  unfold labelled_lines. induction d as [|[name y] d IH]; [reflexivity|].
  cbn. f_equal. exact IH.
Qed.

Lemma plot_line_mapping_in_order_witness :
  let d := [("b", flat [4; 5]%Q); ("a", flat [1; 2; 3]%Q)] in
  let run := plot_line (posix []) (PDict d) (PStr "xy") "X Axis" "Y Axis" "Line Plot"
                       LegendNone None (10, 6)%Z "default" true
                       [("color", PStr "red")] in
  result run = Returned tt
  /\ draws (calls run)
     = map (fun s => AxPlot (given_x (PStr "xy")) (snd s) (Some (fst s))
                            [("color", PStr "red")]) d
  /\ named_series (calls run) = ["b"; "a"].
Proof.
  exact (plot_line_mapping_in_order (posix [])
           [("b", flat [4; 5]%Q); ("a", flat [1; 2; 3]%Q)] (PStr "xy")
           "X Axis" "Y Axis" "Line Plot" LegendNone None (10, 6)%Z "default" true
           [("color", PStr "red")] eq_refl).
Defined.

(** ** [plot_line] on a sequence of sequences *)

(** X2: on a non-empty sequence of sequences [plot_line] raises no
    exception of its own, whatever the keyword options.  Every series is drawn against one shared
    x-axis, [x_data] when given and otherwise the indices of the FIRST
    series, with the labels "Series 1", "Series 2", ...; and a legend is
    displayed whatever the [legend] argument says, [False] included. *)
Theorem plot_line_seq_of_seqs_shared_axis os data first rest x_data xlabel ylabel title
    legend save_path figsize style grid kw :
  classify data = SeqOfSeqs (first :: rest) ->
  let run := plot_line os data x_data xlabel ylabel title legend save_path figsize
                       style grid kw in
  let x := if is_none x_data then py_range (List.length (elements first))
           else x_data in
  result run = Returned tt
  /\ draws (calls run)
     = map (fun s => PltPlot x (snd s) (series_label (fst s)))
           (enumerate (first :: rest))
  /\ legend_shown (calls run) = true.
Proof.
  intros Hshape run x. subst run.
  pose proof (line_series_seq data x_data kw (first :: rest) Hshape) as Hrun.
  cbv beta iota in Hrun. fold x in Hrun.
  rewrite plot_line_result, draws_plot_line, legend_shown_calls.
  assert (Hres : result (line_series data x_data kw) = Returned None)
    by (rewrite Hrun; reflexivity).
  rewrite (legend_calls_plot_line _ _ _ _ _ _ _ _ _ _ _ _ _ Hres).
  rewrite Hrun. cbn [result calls fst snd].
  split; [reflexivity|]. split.
  - rewrite draws_app, draws_series_lines. cbn. rewrite app_nil_r. reflexivity.
  - rewrite legend_calls_app. unfold legend_calls.
    rewrite (filter_disjoint is_legend is_draw (series_lines x (first :: rest))).
    + reflexivity.
    + intros []; intros H; try discriminate H; reflexivity.
    + apply Forall_forall. intros e He.
      apply in_map_iff in He. destruct He as (s & <- & _). reflexivity.
Qed.

Lemma plot_line_seq_of_seqs_shared_axis_witness :
  let data := PList [flat [1; 2]; flat [3; 4; 5]; flat [6]]%Q in
  let run := plot_line (posix []) data PNone "X Axis" "Y Axis" "Line Plot"
                       (LegendBool false) None (10, 6)%Z "default" true [] in
  result run = Returned tt
  /\ draws (calls run)
     = [PltPlot (py_range 2) (flat [1; 2]%Q) "Series 1";
        PltPlot (py_range 2) (flat [3; 4; 5]%Q) "Series 2";
        PltPlot (py_range 2) (flat [6]%Q) "Series 3"]
  /\ legend_shown (calls run) = true.
Proof.
  exact (plot_line_seq_of_seqs_shared_axis (posix [])
           (PList [flat [1; 2]; flat [3; 4; 5]; flat [6]]%Q)
           (flat [1; 2]%Q) [flat [3; 4; 5]; flat [6]]%Q PNone
           "X Axis" "Y Axis" "Line Plot" (LegendBool false) None (10, 6)%Z
           "default" true [] eq_refl).
Defined.

(** ** When [plot_line] raises *)

(** X3: [plot_line] raises an exception of its own in exactly two
    situations: [TypeError] when the keyword options contain [label] and
    the data is a non-empty mapping (alone or second in a pair), since
    [label] is then given twice; and [IndexError] when the data is an empty
    list or tuple and [x_data] is unset. *)
Theorem plot_line_raises_iff os data x_data xlabel ylabel title legend save_path figsize
    style grid kw e :
  result (plot_line os data x_data xlabel ylabel title legend save_path figsize
                    style grid kw) = Raised e
  <->
  (e = TypeError /\ collides ["label"] kw = true
   /\ ((exists s d, classify data = NamedMapping (s :: d))
       \/ (exists x s d, classify data = PairXMapping x (s :: d))))
  \/ (e = IndexError /\ classify data = SeqOfSeqs [] /\ x_data = PNone).
Proof.
  rewrite plot_line_result.
  assert (Hnever : forall shape (r : option (list string)),
             (forall x0 s0 d0, shape <> PairXMapping x0 (s0 :: d0)) ->
             (forall s0 d0, shape <> NamedMapping (s0 :: d0)) ->
             shape <> SeqOfSeqs [] ->
             (@Returned unit tt = Raised e
              <-> (e = TypeError /\ collides ["label"] kw = true
                   /\ ((exists s d, shape = NamedMapping (s :: d))
                       \/ (exists x s d, shape = PairXMapping x (s :: d))))
                  \/ (e = IndexError /\ shape = SeqOfSeqs [] /\ x_data = PNone))).
  { intros shape r H1 H2 H3. split; [intros H; discriminate H|].
    intros [(_ & _ & [(s & d & H) | (x & s & d & H)]) | (_ & H & _)].
    - elim (H2 _ _ H).
    - elim (H1 _ _ _ H).
    - elim (H3 H). }
  destruct (classify data) as [d|x d|x y|series|s] eqn:Hshape.
  - rewrite (line_series_mapping data x_data kw d Hshape).
    destruct (collides ["label"] kw) eqn:Hkw; [destruct d as [|s d]|];
      cbn [result snd ret raise].
    + apply (Hnever _ None); intros; discriminate.
    + split.
      * intros H; injection H as <-. left. repeat split. left. eauto.
      * intros [(-> & _) | (_ & H & _)]; [reflexivity | discriminate H].
    + split; [intros H; discriminate H|].
      intros [(_ & H & _) | (_ & H & _)]; discriminate H.
  - rewrite (line_series_pair_mapping data x_data kw x d Hshape).
    destruct (collides ["label"] kw) eqn:Hkw; [destruct d as [|s d]|];
      cbn [result snd ret raise].
    + apply (Hnever _ None); intros; discriminate.
    + split.
      * intros H; injection H as <-. left. repeat split. right. eauto.
      * intros [(-> & _) | (_ & H & _)]; [reflexivity | discriminate H].
    + split; [intros H; discriminate H|].
      intros [(_ & H & _) | (_ & H & _)]; discriminate H.
  - rewrite (line_series_pair data x_data kw x y Hshape). cbn [result snd].
    apply (Hnever _ None); intros; discriminate.
  - rewrite (line_series_seq data x_data kw series Hshape).
    destruct series as [|first rest].
    + destruct (is_none x_data) eqn:Hx; cbn [result snd raise].
      * split.
        -- intros H; injection H as <-. right. repeat split.
           apply is_none_eq. exact Hx.
        -- intros [(_ & _ & [(s & d & H) | (x' & s & d & H)]) | (-> & _)];
             try discriminate H. reflexivity.
      * split; [intros H; discriminate H|].
        intros [(_ & _ & [(s & d & H) | (x' & s & d & H)]) | (_ & _ & H)];
          try discriminate H.
        apply is_none_eq in H. congruence.
    + cbn [result snd]. apply (Hnever _ None); intros; discriminate.
  - rewrite (line_series_single data x_data kw s Hshape). cbn [result snd].
    apply (Hnever _ None); intros; discriminate.
Qed.

Lemma plot_line_raises_iff_witness :
  result (plot_line_default (posix []) (PTuple [])) = Raised IndexError
  /\ result (plot_line (posix []) (PDict [("a", flat [1; 2; 3]%Q)]) PNone "X Axis"
                       "Y Axis" "Line Plot" LegendNone None (10, 6)%Z "default"
                       true [("label", PStr "mine")]) = Raised TypeError.
Proof.
  split.
  - apply (proj2 (plot_line_raises_iff (posix []) (PTuple []) PNone "X Axis" "Y Axis"
                    "Line Plot" LegendNone None (10, 6)%Z "default" true []
                    IndexError)).
    right. repeat split.
  - reflexivity.
Defined.

(** ** The ticks of [plot_bar] *)

Lemma bar_series_completed_bars data x_data bar_type W kw sn :
  result (bar_series data x_data bar_type W kw) = Returned sn ->
  exists labels n bars,
    len labels = ret n
    /\ Forall (fun e => is_bar e = true) bars
    /\ calls (bar_series data x_data bar_type W kw)
       = bars ++ [SetXticks (arange n); SetXticklabels labels].
Proof.
  intros H.
  destruct (bar_series_completed data x_data bar_type W kw sn H)
    as (labels & n & bars & Hn & Hcalls & Hbars & _).
  exists labels, n, bars. split; [exact Hn|]. split; [|exact Hcalls].
  destruct (series_of data) as [ss|].
  - destruct Hbars as (-> & _). apply draw_bars_only.
  - destruct Hbars as (y & -> & _). repeat constructor.
Qed.

Lemma tick_events_app t1 t2 : tick_events (t1 ++ t2) = tick_events t1 ++ tick_events t2.
Proof. apply filter_app. Qed.

Lemma tick_events_finishing os axis xlabel ylabel title legend save_path grid sn :
  tick_events (finishing os axis xlabel ylabel title legend save_path grid sn) = [].
Proof.
  apply (filter_disjoint is_tick is_finishing_event); [|apply finishing_events].
  intros []; intros H; try discriminate H; reflexivity.
Qed.

Lemma tick_events_plot_bar os data x_data xlabel ylabel title legend save_path figsize
      style grid bar_type W kw :
  tick_events (calls (plot_bar os data x_data xlabel ylabel title legend save_path
                               figsize style grid bar_type W kw))
  = tick_events (calls (bar_series data x_data bar_type W kw)).
Proof.
  rewrite plot_bar_calls, !tick_events_app.
  change (tick_events [StyleUse style; Subplots figsize]) with (@nil event).
  destruct (result (bar_series data x_data bar_type W kw));
    rewrite ?tick_events_finishing; cbn [app]; apply app_nil_r.
Qed.

Lemma tick_events_bars (bars : trace) n labels :
  Forall (fun e => is_bar e = true) bars ->
  tick_events (bars ++ [SetXticks (arange n); SetXticklabels labels])
  = [SetXticks (arange n); SetXticklabels labels].
Proof.
  intros H. rewrite tick_events_app. unfold tick_events at 1.
  rewrite (filter_disjoint is_tick is_bar); [reflexivity | | exact H].
  intros []; intros H'; try discriminate H'; reflexivity.
Qed.

(** X4: a completed [plot_bar] call sets the ticks exactly once: at the
    integer positions [0 .. n-1], one per element of the tick labels,
    whether the labels are numbers or category names.  When [x_data] is
    given and [data] is not one of the pair shapes, the labels are
    [x_data]. *)
Theorem plot_bar_ticks_are_indices os data x_data xlabel ylabel title legend save_path
    figsize style grid bar_type W kw :
  let run := plot_bar os data x_data xlabel ylabel title legend save_path figsize
                      style grid bar_type W kw in
  result run = Returned tt ->
  exists n labels,
    len labels = ret n
    /\ tick_events (calls run) = [SetXticks (arange n); SetXticklabels labels]
    /\ (is_pair_shape data = false -> is_none x_data = false -> labels = x_data).
Proof.
  intros run Hret. subst run. rewrite plot_bar_result in Hret.
  destruct (result (bar_series data x_data bar_type W kw)) as [sn|e] eqn:E;
    [|discriminate Hret].
  destruct (bar_series_completed data x_data bar_type W kw sn E)
    as (labels & n & bars & Hn & Hcalls & _ & Haxis).
  destruct (bar_series_completed_bars data x_data bar_type W kw sn E)
    as (labels' & n' & bars' & _ & Hbars & Hcalls').
  exists n', labels'.
  assert (Hsame : labels' = labels /\ n' = n).
  { rewrite Hcalls in Hcalls'. apply (f_equal (@rev event)) in Hcalls'.
    rewrite !rev_app_distr in Hcalls'. cbn in Hcalls'.
    injection Hcalls' as Hl Hx _. split; [congruence|].
    apply (f_equal (@List.length Q)) in Hx. unfold arange in Hx.
    rewrite !length_map, !length_seq in Hx. congruence. }
  destruct Hsame as [-> ->].
  split; [exact Hn|]. split.
  - rewrite tick_events_plot_bar, Hcalls'. apply tick_events_bars. exact Hbars.
  - unfold is_pair_shape. intros Hpair Hx.
    destruct (classify data); try discriminate Hpair; rewrite Hx in Haxis;
      exact Haxis.
Qed.

Lemma plot_bar_ticks_are_indices_witness :
  let months := PList [PStr "Jan"; PStr "Feb"; PStr "Mar"] in
  let run := plot_bar (posix []) (flat [3; 1; 2]%Q) months "X Axis" "Y Axis"
                      "Bar Plot" LegendNone None (10, 6)%Z "default" true
                      "grouped" (8 # 10)%Q [] in
  exists n labels,
    len labels = ret n
    /\ tick_events (calls run) = [SetXticks (arange n); SetXticklabels labels]
    /\ (is_pair_shape (flat [3; 1; 2]%Q) = false ->
        is_none months = false -> labels = months).
Proof.
  exact (plot_bar_ticks_are_indices (posix []) (flat [3; 1; 2]%Q)
           (PList [PStr "Jan"; PStr "Feb"; PStr "Mar"]) "X Axis" "Y Axis"
           "Bar Plot" LegendNone None (10, 6)%Z "default" true "grouped"
           (8 # 10)%Q [] eq_refl).
Defined.

(** X5: with [x_data] unset, a completed [plot_bar] call on a mapping or on
    a sequence of sequences takes its x-axis from the FIRST series alone:
    one tick per element of it, labelled [0 .. n-1], whatever the lengths of
    the other series. *)
Theorem plot_bar_axis_from_first_series os data first xlabel ylabel title legend
    save_path figsize style grid bar_type W kw :
  (exists k rest, classify data = NamedMapping ((k, first) :: rest))
  \/ (exists rest, classify data = SeqOfSeqs (first :: rest)) ->
  let run := plot_bar os data PNone xlabel ylabel title legend save_path figsize
                      style grid bar_type W kw in
  result run = Returned tt ->
  exists n,
    len first = ret n
    /\ tick_events (calls run) = [SetXticks (arange n); SetXticklabels (py_range n)].
Proof.
  intros Hshape run Hret. subst run. rewrite plot_bar_result in Hret.
  destruct (result (bar_series data PNone bar_type W kw)) as [sn|e] eqn:E;
    [|discriminate Hret].
  destruct (bar_series_completed data PNone bar_type W kw sn E)
    as (labels & n & bars & Hn & Hcalls & Hbars & Haxis).
  assert (HF : Forall (fun e => is_bar e = true) bars).
  { destruct (series_of data) as [ss|].
    - destruct Hbars as (-> & _). apply draw_bars_only.
    - destruct Hbars as (y & -> & _). repeat constructor. }
  exists n. rewrite tick_events_plot_bar, Hcalls, (tick_events_bars _ _ _ HF).
  cbn [is_none] in Haxis.
  destruct Hshape as [(k & rest & Hc) | (rest & Hc)]; rewrite Hc in Haxis.
  - destruct Haxis as (k' & v & rest' & Heq & Hv & ->).
    injection Heq as <- <- <-. split; [exact Hv | reflexivity].
  - destruct Haxis as (v & rest' & Heq & Hv & ->).
    injection Heq as <- <-. split; [exact Hv | reflexivity].
Qed.

Lemma plot_bar_axis_from_first_series_witness :
  let data := PDict [("a", flat [1; 2]%Q); ("b", flat [3; 4; 5]%Q)] in
  let run := plot_bar_default (posix []) data in
  exists n,
    len (flat [1; 2]%Q) = ret n
    /\ tick_events (calls run) = [SetXticks (arange n); SetXticklabels (py_range n)].
Proof.
  exact (plot_bar_axis_from_first_series (posix [])
           (PDict [("a", flat [1; 2]%Q); ("b", flat [3; 4; 5]%Q)]) (flat [1; 2]%Q)
           "X Axis" "Y Axis" "Bar Plot" LegendNone None (10, 6)%Z "default" true
           "grouped" (8 # 10)%Q []
           (or_introl (ex_intro _ "a" (ex_intro _ [("b", flat [3; 4; 5]%Q)] eq_refl)))
           eq_refl).
Defined.

(** ** The series [plot_bar] draws *)

Lemma drawn_app t1 t2 : drawn (t1 ++ t2) = drawn t1 ++ drawn t2.
Proof. apply flat_map_app. Qed.

Lemma drawn_none (Q : event -> bool) (t : trace) :
  (forall e, Q e = true -> drawn_series e = None) ->
  Forall (fun e => Q e = true) t -> drawn t = [].
Proof.
  intros H. induction 1 as [|e t He _ IH]; [reflexivity|].
  unfold drawn in *. simpl. rewrite (H e He). exact IH.
Qed.

Lemma drawn_finishing os axis xlabel ylabel title legend save_path grid sn :
  drawn (finishing os axis xlabel ylabel title legend save_path grid sn) = [].
Proof.
  apply (drawn_none is_finishing_event); [|apply finishing_events].
  intros []; intros H; try discriminate H; reflexivity.
Qed.

Lemma drawn_grouped ticks W kw S ss : forall i,
  drawn (map (grouped_bar ticks W kw S) (enumerate_from i ss))
  = map (fun s => (Some (fst s), snd s)) ss.
Proof.
  induction ss as [|[name y] ss IH]; intros i; [reflexivity|].
  cbn. f_equal. apply IH.
Qed.

Lemma drawn_stacked x_pos W kw : forall ss b0 bottom,
  result (stacked_bars x_pos W kw ss b0) = Returned bottom ->
  drawn (calls (stacked_bars x_pos W kw ss b0))
  = map (fun s => (Some (fst s), snd s)) ss.
Proof.
  induction ss as [|[name y] ss IH]; intros b0 bottom; [reflexivity|].
  cbn [stacked_bars]. unfold call.
  destruct (collides ["label"; "bottom"] kw); [intros H; discriminate H|].
  rewrite bind_emit_l.
  destruct (np_array_cases y) as [[a Ha]|[ex Ha]]; rewrite Ha;
    [|intros H; discriminate H].
  rewrite bind_ret_l.
  destruct (iadd_cases b0 a) as [[b' Hadd]|Hadd]; rewrite Hadd;
    [|intros H; discriminate H].
  rewrite bind_ret_l. cbn [result calls fst snd]. intros H.
  change (drawn (AxBar x_pos y W (Some name) (Some b0) kw
                 :: fst (stacked_bars x_pos W kw ss b'))
          = (Some name, y) :: map (fun s => (Some (fst s), snd s)) ss).
  change (drawn (AxBar x_pos y W (Some name) (Some b0) kw
                 :: fst (stacked_bars x_pos W kw ss b')))
    with ((Some name, y) :: drawn (calls (stacked_bars x_pos W kw ss b'))).
  f_equal. apply (IH b' bottom). exact H.
Qed.

Lemma drawn_draw_bars bar_type x_pos W kw ss :
  result (draw_bars bar_type x_pos W kw ss) = Returned tt ->
  drawn (calls (draw_bars bar_type x_pos W kw ss))
  = map (fun s => (Some (fst s), snd s)) ss.
Proof.
  unfold draw_bars. destruct (String.eqb bar_type "stacked").
  - rewrite then_ret_tt.
    pose proof (drawn_stacked x_pos W kw ss (zeros (List.length x_pos))) as Hd.
    destruct (stacked_bars x_pos W kw ss (zeros (List.length x_pos)))
      as [t [bottom|e]]; cbn [result calls fst snd] in *;
      [|intros H; discriminate H].
    intros _. apply (Hd bottom). reflexivity.
  - rewrite grouped_bars_run.
    destruct ss as [|s ss]; [intros H; cbn [result snd raise] in H; discriminate H|].
    destruct (collides ["label"] kw);
      [intros H; cbn [result snd raise] in H; discriminate H|].
    intros _. apply drawn_grouped.
Qed.

(** X6: a completed [plot_bar] call on a multi-series shape has drawn, in
    either bar mode, exactly one bar series per input series, in the order
    of the input (insertion order for a mapping), each labelled with its
    name and given its own y-values unchanged. *)
Theorem plot_bar_series_in_order os data x_data xlabel ylabel title legend save_path
    figsize style grid bar_type W kw ss :
  series_of data = Some ss ->
  let run := plot_bar os data x_data xlabel ylabel title legend save_path figsize
                      style grid bar_type W kw in
  result run = Returned tt ->
  drawn (calls run) = map (fun s => (Some (fst s), snd s)) ss.
Proof.
  intros Hss run Hret. subst run. rewrite plot_bar_result in Hret.
  destruct (result (bar_series data x_data bar_type W kw)) as [sn|e] eqn:E;
    [|discriminate Hret].
  destruct (bar_series_completed data x_data bar_type W kw sn E)
    as (labels & n & bars & _ & Hcalls & Hbars & _).
  rewrite Hss in Hbars. destruct Hbars as (-> & Hdraw & _).
  rewrite plot_bar_calls, E, Hcalls, !drawn_app, drawn_finishing.
  rewrite (drawn_draw_bars _ _ _ _ _ Hdraw). cbn. rewrite !app_nil_r. reflexivity.
Qed.

Lemma plot_bar_series_in_order_witness :
  let data := PList [flat [1; 2; 3]; flat [4; 5; 6]; flat [7; 8; 9]]%Q in
  let run := plot_bar (posix []) data PNone "X Axis" "Y Axis" "Bar Plot" LegendNone
                      None (10, 6)%Z "default" true "stacked" (8 # 10)%Q [] in
  drawn (calls run)
  = [(Some "Series 1", flat [1; 2; 3]%Q); (Some "Series 2", flat [4; 5; 6]%Q);
     (Some "Series 3", flat [7; 8; 9]%Q)].
Proof.
  exact (plot_bar_series_in_order (posix [])
           (PList [flat [1; 2; 3]; flat [4; 5; 6]; flat [7; 8; 9]]%Q) PNone
           "X Axis" "Y Axis" "Bar Plot" LegendNone None (10, 6)%Z "default" true
           "stacked" (8 # 10)%Q []
           [("Series 1", flat [1; 2; 3]%Q); ("Series 2", flat [4; 5; 6]%Q);
            ("Series 3", flat [7; 8; 9]%Q)]
           eq_refl eq_refl).
Defined.

(** ** [legend=False] *)

Lemma line_series_draws_only data x_data kw :
  (forall series, classify data <> SeqOfSeqs series) ->
  only (fun e => is_draw e = true) (line_series data x_data kw).
Proof.
  unfold line_series. intros H.
  destruct (classify data) as [| | |series|]; try solve [repeat only_step].
  elim (H series). reflexivity.
Qed.

Lemma handle_legend_false sn : calls (handle_legend (LegendBool false) sn) = [].
Proof. destruct sn; reflexivity. Qed.

(** X7: with [legend=False], [plot_bar] never displays a legend, and
    [plot_line] displays none unless the data is a sequence of sequences
    (the one branch that calls [plt.legend()] on its own). *)
Theorem legend_false_suppresses os data x_data xlabel ylabel title save_path figsize
    style grid bar_type W kw :
  legend_shown (calls (plot_bar os data x_data xlabel ylabel title (LegendBool false)
                                save_path figsize style grid bar_type W kw)) = false
  /\ ((forall series, classify data <> SeqOfSeqs series) ->
      legend_shown (calls (plot_line os data x_data xlabel ylabel title
                                     (LegendBool false) save_path figsize style grid
                                     kw)) = false).
Proof.
  rewrite !legend_shown_calls, plot_bar_calls, plot_line_calls.
  rewrite !legend_calls_app, legend_calls_bar_series.
  change (legend_calls [StyleUse style; Subplots figsize]) with (@nil event).
  split.
  - destruct (result (bar_series data x_data bar_type W kw));
      [rewrite legend_calls_finishing, handle_legend_false|]; reflexivity.
  - intros Hshape.
    assert (Hnone : legend_calls (calls (line_series data x_data kw)) = []).
    { apply (filter_disjoint is_legend is_draw).
      - intros []; intros H; try discriminate H; reflexivity.
      - apply line_series_draws_only. exact Hshape. }
    rewrite Hnone.
    destruct (result (line_series data x_data kw));
      [rewrite legend_calls_finishing, handle_legend_false|]; reflexivity.
Qed.

Lemma legend_false_suppresses_witness :
  let data := PDict [("a", flat [1; 2; 3]%Q); ("b", flat [4; 5; 6]%Q)] in
  legend_shown (calls (plot_line_default (posix []) data)) = true
  /\ legend_shown (calls (plot_line (posix []) data PNone "X Axis" "Y Axis"
                                    "Line Plot" (LegendBool false) None (10, 6)%Z
                                    "default" true [])) = false.
Proof.
  cbv zeta. split; [reflexivity|].
  apply (legend_false_suppresses (posix [])
           (PDict [("a", flat [1; 2; 3]%Q); ("b", flat [4; 5; 6]%Q)]) PNone
           "X Axis" "Y Axis" "Line Plot" None (10, 6)%Z "default" true "grouped"
           (8 # 10)%Q []).
  intros series H; discriminate H.
Defined.

(** ** Failed and completed calls *)




(** ** Saving next to existing files *)

Lemma save_figure_parent_present os path :
  path <> "" ->
  dirname os path = "" \/ path_exists os (dirname os path) = true ->
  calls (save_figure os (Some path))
  = [Savefig path 300 "tight"; PrintLine ("Image saved to: " ++ path)].
Proof.
  intros Hpath Hdir. destruct path as [|c s]; [congruence|].
  unfold save_figure.
  destruct Hdir as [-> | ->]; [reflexivity|].
  rewrite andb_false_r. reflexivity.
Qed.

(** X9: when [save_path] is a bare file name, or names a file in a directory
    that exists, a completed call creates no directory: it only writes the
    figure and prints the confirmation.  An empty [save_path] saves nothing,
    like [None]. *)
Theorem save_without_makedirs os data x_data xlabel ylabel title legend figsize style
    grid bar_type W kw path :
  path <> "" ->
  dirname os path = "" \/ path_exists os (dirname os path) = true ->
  let written := [Savefig path 300 "tight"; PrintLine ("Image saved to: " ++ path)] in
  (result (plot_line os data x_data xlabel ylabel title legend (Some path) figsize
                     style grid kw) = Returned tt ->
   file_events (calls (plot_line os data x_data xlabel ylabel title legend
                                 (Some path) figsize style grid kw)) = written)
  /\ (result (plot_bar os data x_data xlabel ylabel title legend (Some path) figsize
                       style grid bar_type W kw) = Returned tt ->
      file_events (calls (plot_bar os data x_data xlabel ylabel title legend
                                   (Some path) figsize style grid bar_type W kw))
      = written)
  /\ file_events (calls (plot_line os data x_data xlabel ylabel title legend
                                   (Some "") figsize style grid kw)) = []
  /\ file_events (calls (plot_bar os data x_data xlabel ylabel title legend
                                  (Some "") figsize style grid bar_type W kw)) = [].
Proof.
  intros Hpath Hdir written. subst written.
  rewrite plot_line_result, plot_bar_result.
  rewrite !file_events_plot_line, !file_events_plot_bar.
  rewrite (save_figure_parent_present os path Hpath Hdir).
  repeat split.
  - destruct (result (line_series data x_data kw)); [reflexivity | discriminate].
  - destruct (result (bar_series data x_data bar_type W kw));
      [reflexivity | discriminate].
  - destruct (result (line_series data x_data kw)); reflexivity.
  - destruct (result (bar_series data x_data bar_type W kw)); reflexivity.
Qed.

Lemma save_without_makedirs_witness :
  file_events (calls (plot_line (posix []) (flat [1; 2; 3]%Q) PNone "X Axis" "Y Axis"
                                "Line Plot" LegendNone (Some "chart.png") (10, 6)%Z
                                "default" true []))
  = [Savefig "chart.png" 300 "tight"; PrintLine "Image saved to: chart.png"].
Proof.
  destruct (save_without_makedirs (posix []) (flat [1; 2; 3]%Q) PNone "X Axis"
              "Y Axis" "Line Plot" LegendNone (10, 6)%Z "default" true "grouped"
              (8 # 10)%Q [] "chart.png") as (Hl & _).
  - discriminate.
  - left. reflexivity.
  - exact (Hl eq_refl).
Defined.

(** ** The [bar_type] argument *)

(** X10: [bar_type] is only ever compared with ['stacked']: any other
    string, misspellings included, gives exactly the grouped chart; and for
    the single-series shapes the argument has no effect at all. *)
Theorem bar_type_other_than_stacked_is_grouped os data x_data xlabel ylabel title legend
    save_path figsize style grid bar_type W kw :
  (bar_type <> "stacked" ->
   plot_bar os data x_data xlabel ylabel title legend save_path figsize style grid
            bar_type W kw
   = plot_bar os data x_data xlabel ylabel title legend save_path figsize style grid
              "grouped" W kw)
  /\ (series_of data = None ->
      plot_bar os data x_data xlabel ylabel title legend save_path figsize style grid
               bar_type W kw
      = plot_bar os data x_data xlabel ylabel title legend save_path figsize style
                 grid "stacked" W kw).
Proof.
  split.
  - intros H. apply String.eqb_neq in H.
    unfold plot_bar, bar_series, draw_bars. rewrite H. reflexivity.
  - unfold series_of. intros H.
    unfold plot_bar, bar_series.
    destruct (classify data); try discriminate H; reflexivity.
Qed.

Lemma bar_type_other_than_stacked_is_grouped_witness :
  let data := PDict [("a", flat [1; 2; 3]%Q); ("b", flat [4; 5; 6]%Q)] in
  plot_bar (posix []) data PNone "X Axis" "Y Axis" "Bar Plot" LegendNone None
           (10, 6)%Z "default" true "Stacked" (8 # 10)%Q []
  = plot_bar_default (posix []) data.
Proof.
  destruct (bar_type_other_than_stacked_is_grouped (posix [])
              (PDict [("a", flat [1; 2; 3]%Q); ("b", flat [4; 5; 6]%Q)]) PNone
              "X Axis" "Y Axis" "Bar Plot" LegendNone None (10, 6)%Z "default" true
              "Stacked" (8 # 10)%Q []) as (H & _).
  apply H. discriminate.
Defined.

(** ** Zero series *)

Lemma bar_series_zero data x_data n bar_type W kw :
  data = PDict [] \/ data = PList [] \/ data = PTuple [] ->
  is_none x_data = false -> len x_data = ret n ->
  bar_series data x_data bar_type W kw
  = if String.eqb bar_type "stacked"
    then ([SetXticks (arange n); SetXticklabels x_data], Returned (Some []))
    else ([], Raised ZeroDivisionError).
Proof.
  intros Hdata Hx Hn. unfold bar_series, draw_bars.
  destruct Hdata as [-> | [-> | ->]]; cbn [classify forallb];
    rewrite Hx, bind_ret_l, Hn, bind_ret_l;
    destruct (String.eqb bar_type "stacked"); reflexivity.
Qed.

(** X11: given no series at all (an empty mapping, list or tuple) together
    with an [x_data] that has a length, stacked mode raises no exception of
    its own and leaves an empty chart whose ticks are labelled with
    [x_data], while grouped mode divides
    the width by zero series and raises [ZeroDivisionError] before anything
    is drawn. *)
Theorem zero_series_bar_chart os data x_data n xlabel ylabel title legend save_path
    figsize style grid bar_type W kw :
  data = PDict [] \/ data = PList [] \/ data = PTuple [] ->
  is_none x_data = false -> len x_data = ret n ->
  let stacked := plot_bar os data x_data xlabel ylabel title legend save_path figsize
                          style grid "stacked" W kw in
  (bar_type <> "stacked" ->
   plot_bar os data x_data xlabel ylabel title legend save_path figsize style grid
            bar_type W kw
   = ([StyleUse style; Subplots figsize], Raised ZeroDivisionError))
  /\ result stacked = Returned tt
  /\ draws (calls stacked) = []
  /\ tick_events (calls stacked) = [SetXticks (arange n); SetXticklabels x_data].
Proof.
  intros Hdata Hx Hn stacked. subst stacked.
  rewrite plot_bar_result, draws_plot_bar, tick_events_plot_bar.
  rewrite (bar_series_zero data x_data n "stacked" W kw Hdata Hx Hn).
  split; [|repeat split].
  intros Hbt. apply String.eqb_neq in Hbt.
  rewrite plot_bar_run, (bar_series_zero data x_data n bar_type W kw Hdata Hx Hn), Hbt.
  reflexivity.
Qed.

Lemma zero_series_bar_chart_witness :
  plot_bar (posix []) (PDict []) (PList [PStr "a"; PStr "b"]) "X Axis" "Y Axis"
           "Bar Plot" LegendNone None (10, 6)%Z "default" true "grouped" (8 # 10)%Q []
  = ([StyleUse "default"; Subplots (10, 6)%Z], Raised ZeroDivisionError).
Proof.
  destruct (zero_series_bar_chart (posix []) (PDict []) (PList [PStr "a"; PStr "b"])
              2 "X Axis" "Y Axis" "Bar Plot" LegendNone None (10, 6)%Z "default" true
              "grouped" (8 # 10)%Q [] (or_introl eq_refl) eq_refl eq_refl)
    as (H & _).
  apply H. discriminate.
Defined.

(** ** The automatic series names *)

Lemma string_of_nat_inj a b : string_of_nat a = string_of_nat b -> a = b.
Proof.
  unfold string_of_nat. intros H.
  assert (Hu : Nat.to_uint a = Nat.to_uint b).
  { apply (f_equal NilEmpty.uint_of_string) in H.
    rewrite !NilEmpty.usu in H. congruence. }
  apply (f_equal Nat.of_uint) in Hu.
  rewrite !DecimalNat.Unsigned.of_to in Hu. exact Hu.
Qed.

Lemma series_label_inj i j : series_label i = series_label j -> i = j.
Proof.
  unfold series_label. intros H. cbn in H.
  repeat match type of H with String _ _ = String _ _ => injection H as H end.
  apply string_of_nat_inj in H. lia.
Qed.

Lemma NoDup_map_inj {A B} (f : A -> B) (l : list A) :
  (forall a b, f a = f b -> a = b) -> NoDup l -> NoDup (map f l).
Proof.
  intros Hinj. induction 1 as [|a l Ha _ IH]; [constructor|].
  cbn. constructor; [|exact IH].
  intros Hin. apply in_map_iff in Hin. destruct Hin as (b & Hb & Hin).
  apply Hinj in Hb. subst b. exact (Ha Hin).
Qed.

(** X13: the names [plot_bar] gives the series of a sequence of sequences
    are as many as the series and pairwise distinct, so no two series share
    a legend entry. *)
Theorem auto_names_distinct (series : list pyval) :
  List.length (auto_names series) = List.length series
  /\ NoDup (auto_names series)
  /\ forall i, i < List.length series ->
               nth_error (auto_names series) i = Some (series_label i).
Proof.
  unfold auto_names. split; [rewrite length_map, length_seq; reflexivity|]. split.
  - apply NoDup_map_inj; [exact series_label_inj | apply seq_NoDup].
  - intros i Hi. rewrite nth_error_map, nth_error_seq.
    destruct (Nat.ltb_spec i (List.length series)); [reflexivity | lia].
Qed.

Lemma auto_names_distinct_witness :
  nth_error (auto_names [flat [1]; flat [2]; flat [3]]%Q) 2 = Some "Series 3".
Proof.
  destruct (auto_names_distinct [flat [1]; flat [2]; flat [3]]%Q) as (_ & _ & H).
  apply (H 2). cbn. lia.
Defined.

(** ** Draw first, legend afterwards *)

(** X14: in every call of either renderer, completed or not, all draw calls
    come before any legend call, so a legend never misses a series drawn
    later. *)
Theorem legend_after_draws os data x_data xlabel ylabel title legend save_path figsize
    style grid bar_type W kw :
  let line := plot_line os data x_data xlabel ylabel title legend save_path figsize
                        style grid kw in
  let bar := plot_bar os data x_data xlabel ylabel title legend save_path figsize
                      style grid bar_type W kw in
  (exists before after,
      calls line = before ++ after /\ legend_calls before = [] /\ draws after = [])
  /\ (exists before after,
         calls bar = before ++ after /\ legend_calls before = [] /\ draws after = []).
Proof.
  cbv zeta. split.
  - rewrite plot_line_calls.
    match goal with
    | |- context [calls (line_series data x_data kw) ++ ?f] => set (fin := f)
    end.
    assert (Hfin : draws fin = []).
    { subst fin. destruct (result (line_series data x_data kw));
        [apply draws_finishing | reflexivity]. }
    clearbody fin.
    destruct (classify data) as [d|x d|x y|series|s] eqn:Hshape.
    4: destruct series as [|first rest].
    1-3, 6:
      (exists ([StyleUse style; Subplots figsize] ++ calls (line_series data x_data kw)),
         fin;
       split; [rewrite <- app_assoc; reflexivity|]; split; [|exact Hfin];
       rewrite legend_calls_app;
       apply (filter_disjoint is_legend is_draw);
       [ intros []; intros H; try discriminate H; reflexivity
       | apply line_series_draws_only; rewrite Hshape; intros l H; discriminate H ]).
    + (* an empty sequence draws nothing *)
      exists [StyleUse style; Subplots figsize],
             (calls (line_series data x_data kw) ++ fin).
      split; [reflexivity|]. split; [reflexivity|].
      rewrite draws_app, Hfin, app_nil_r.
      rewrite (line_series_seq data x_data kw [] Hshape).
      destruct (is_none x_data); reflexivity.
    + (* the lines, then plt.legend() *)
      pose proof (line_series_seq data x_data kw (first :: rest) Hshape) as Hrun.
      cbv beta iota in Hrun.
      set (x := if is_none x_data then py_range (List.length (elements first))
                else x_data) in Hrun.
      exists ([StyleUse style; Subplots figsize] ++ series_lines x (first :: rest)),
             ([PltLegend] ++ fin).
      replace (calls (line_series data x_data kw))
        with (series_lines x (first :: rest) ++ [PltLegend])
        by (rewrite Hrun; reflexivity).
      rewrite <- !app_assoc.
      split; [reflexivity|]. split.
      * rewrite legend_calls_app. apply (filter_disjoint is_legend is_draw).
        -- intros []; intros H; try discriminate H; reflexivity.
        -- apply Forall_forall. intros e He. apply in_map_iff in He.
           destruct He as (s & <- & _). reflexivity.
      * rewrite draws_app, Hfin. reflexivity.
  - rewrite plot_bar_calls.
    exists ([StyleUse style; Subplots figsize]
            ++ calls (bar_series data x_data bar_type W kw)),
           (match result (bar_series data x_data bar_type W kw) with
            | Returned sn =>
                finishing os (Some "y") xlabel ylabel title legend save_path grid sn
            | Raised _ => []
            end).
    split; [rewrite <- app_assoc; reflexivity|]. split.
    + rewrite legend_calls_app, legend_calls_bar_series. reflexivity.
    + destruct (result (bar_series data x_data bar_type W kw));
        [apply draws_finishing | reflexivity].
Qed.

(** ** When a single-series bar chart raises *)

(** X15: on the single-series shapes [plot_bar] raises an exception of its
    own exactly when the object that sizes the x-axis has no length (a
    number or [None]), and the exception is [TypeError]; keyword options
    never make it fail. *)
Theorem plot_bar_single_raises_iff os data x_data xlabel ylabel title legend save_path
    figsize style grid bar_type W kw e :
  series_of data = None ->
  (result (plot_bar os data x_data xlabel ylabel title legend save_path figsize
                    style grid bar_type W kw) = Raised e
   <-> e = TypeError /\ len (single_axis data x_data) = raise TypeError).
Proof.
  unfold series_of, single_axis. intros Hshape.
  rewrite plot_bar_result. unfold bar_series.
  assert (Hraise : forall A (m : M A),
             match result (@raise A TypeError) with
             | Returned _ => Returned tt
             | Raised e0 => Raised e0
             end = Raised e <-> e = TypeError /\ @raise nat TypeError = raise TypeError).
  { intros A m. cbn. split; [intros H; injection H as <-; split; reflexivity|].
    intros [-> _]. reflexivity. }
  destruct (classify data) as [d|x d|x y|series|s]; try discriminate Hshape.
  - destruct (len_cases x) as [[n Hn]|Hn]; rewrite Hn.
    + rewrite bind_ret_l, call_nil. cbn. split; [intros H; discriminate H|].
      intros [_ H]; discriminate H.
    + apply (Hraise _ (ret None)).
  - destruct (is_none x_data).
    + destruct (len_cases s) as [[n Hn]|Hn]; rewrite Hn.
      * rewrite !bind_ret_l, len_py_range, bind_ret_l, call_nil. cbn.
        split; [intros H; discriminate H|]. intros [_ H]; discriminate H.
      * apply (Hraise _ (ret None)).
    + rewrite bind_ret_l.
      destruct (len_cases x_data) as [[n Hn]|Hn]; rewrite Hn.
      * rewrite bind_ret_l, call_nil. cbn.
        split; [intros H; discriminate H|]. intros [_ H]; discriminate H.
      * apply (Hraise _ (ret None)).
Qed.

Lemma plot_bar_single_raises_iff_witness :
  result (plot_bar_default (posix []) (PNum 5)) = Raised TypeError.
Proof.
  apply (proj2 (plot_bar_single_raises_iff (posix []) (PNum 5) PNone "X Axis" "Y Axis"
                  "Bar Plot" LegendNone None (10, 6)%Z "default" true "grouped"
                  (8 # 10)%Q [] TypeError eq_refl)).
  split; reflexivity.
Defined.

(** ** Witnesses of the completion and forwarding lemmas *)

Lemma plot_bar_mapping_completes_witness :
  result (plot_bar (posix [])
            (PDict [("a", flat [1; 2; 3]%Q); ("b", flat [4; 5; 6]%Q)]) PNone
            "X Axis" "Y Axis" "Bar Plot" LegendNone None (10, 6)%Z "default" true
            "stacked" (8 # 10)%Q [("color", PStr "red")]) = Returned tt.
Proof.
  apply (plot_bar_mapping_completes (posix [])
           [("a", flat [1; 2; 3]%Q); ("b", flat [4; 5; 6]%Q)] 3).
  - discriminate.
  - repeat constructor; eexists; split; reflexivity.
  - reflexivity.
Defined.

Lemma kwargs_forwarded_witness :
  let kw := [("color", PStr "red")] in
  forwards kw (calls (plot_line (posix []) (flat [1; 2; 3]%Q) PNone "X Axis" "Y Axis"
                                "Line Plot" LegendNone None (10, 6)%Z "default" true
                                kw)).
Proof.
  cbv zeta.
  destruct (kwargs_forwarded (posix []) (flat [1; 2; 3]%Q) PNone "X Axis" "Y Axis"
              "Line Plot" LegendNone None (10, 6)%Z "default" true "grouped"
              (8 # 10)%Q [("color", PStr "red")]) as (_ & H).
  apply H. intros series Hs. discriminate Hs.
Defined.

Lemma plot_line_flat_witness :
  lines (calls (plot_line_default (posix []) (flat [5; 7; 9]%Q)))
  = [(py_range 3, flat [5; 7; 9]%Q)].
Proof.
  destruct (plot_line_flat (posix []) [5; 7; 9]%Q) as (_ & H).
  - discriminate.
  - discriminate.
  - exact H.
Defined.

(** ** When a grouped chart raises *)

Lemma bar_series_explicit_axis data x_data bar_type W kw ss ax :
  series_of data = Some ss ->
  explicit_axis data x_data = Some ax ->
  exists sn,
    bar_series data x_data bar_type W kw
    = (n <- len ax ;;
       draw_bars bar_type (arange n) W kw ss ;;
       emit (SetXticks (arange n)) ;;
       emit (SetXticklabels ax) ;;
       ret (Some sn)).
Proof.
  unfold series_of, explicit_axis, bar_series.
  destruct (classify data) as [d|x d|x y|series|s]; intros Hss Hax;
    try discriminate Hss; injection Hss as <-.
  - destruct (is_none x_data); [discriminate Hax|]. injection Hax as <-.
    rewrite bind_ret_l. eexists; reflexivity.
  - injection Hax as <-. eexists; reflexivity.
  - destruct (is_none x_data); [discriminate Hax|]. injection Hax as <-.
    rewrite bind_ret_l. eexists; reflexivity.
Qed.

(** X16: in grouped mode, on a multi-series shape whose x-axis is given
    explicitly (a pair, or [x_data]), [plot_bar] raises an exception of its
    own in exactly three situations: the x-axis has no length ([TypeError]),
    there is no series to divide the width among ([ZeroDivisionError]), or
    the keyword options repeat [label] ([TypeError]).  The y-values are
    never inspected: series of unequal lengths are not rejected here. *)
Theorem grouped_raises_iff os data x_data xlabel ylabel title legend save_path figsize
    style grid bar_type W kw ss ax e :
  series_of data = Some ss ->
  explicit_axis data x_data = Some ax ->
  bar_type <> "stacked" ->
  (result (plot_bar os data x_data xlabel ylabel title legend save_path figsize
                    style grid bar_type W kw) = Raised e
   <-> (e = TypeError /\ len ax = raise TypeError)
       \/ (e = ZeroDivisionError /\ ss = [] /\ exists n, len ax = ret n)
       \/ (e = TypeError /\ ss <> [] /\ collides ["label"] kw = true
           /\ exists n, len ax = ret n)).
Proof.
  intros Hss Hax Hbt. apply String.eqb_neq in Hbt.
  rewrite plot_bar_result.
  destruct (bar_series_explicit_axis data x_data bar_type W kw ss ax Hss Hax)
    as [sn ->].
  destruct (len_cases ax) as [[n Hn]|Hn]; rewrite Hn.
  - rewrite bind_ret_l, ticks_run. unfold draw_bars. rewrite Hbt, grouped_bars_run.
    destruct ss as [|s ss]; [|destruct (collides ["label"] kw)];
      cbn [result snd raise]; split.
    + intros H; injection H as <-. right; left. repeat split. eauto.
    + intros [(_ & H) | [(-> & _) | (_ & H & _)]];
        [discriminate H | reflexivity | congruence].
    + intros H; injection H as <-. right; right. repeat split; eauto.
      discriminate.
    + intros [(_ & H) | [(_ & H & _) | (-> & _)]];
        [discriminate H | discriminate H | reflexivity].
    + intros H; discriminate H.
    + intros [(_ & H) | [(_ & H & _) | (_ & _ & H & _)]]; discriminate H.
  - cbn [result snd raise bind]. split.
    + intros H; injection H as <-. left. split; reflexivity.
    + intros [(-> & _) | [(_ & _ & n & H) | (_ & _ & _ & n & H)]];
        [reflexivity | discriminate H | discriminate H].
Qed.

Lemma grouped_raises_iff_witness :
  let data := PTuple [PList [PStr "Q1"; PStr "Q2"];
                      PDict [("a", flat [1; 2; 3]%Q); ("b", PNone)]] in
  result (plot_bar_default (posix []) data) = Returned tt.
Proof.
  cbv zeta.
  destruct (result (plot_bar_default (posix [])
                      (PTuple [PList [PStr "Q1"; PStr "Q2"];
                               PDict [("a", flat [1; 2; 3]%Q); ("b", PNone)]])))
    as [[]|e] eqn:E; [reflexivity|].
  apply (grouped_raises_iff (posix [])
           (PTuple [PList [PStr "Q1"; PStr "Q2"];
                    PDict [("a", flat [1; 2; 3]%Q); ("b", PNone)]]) PNone
           "X Axis" "Y Axis" "Bar Plot" LegendNone None (10, 6)%Z "default" true
           "grouped" (8 # 10)%Q []
           [("a", flat [1; 2; 3]%Q); ("b", PNone)]
           (PList [PStr "Q1"; PStr "Q2"]) e eq_refl eq_refl) in E;
    [|discriminate].
  destruct E as [(_ & H) | [(_ & H & _) | (_ & _ & H & _)]]; discriminate H.
Defined.

(** ** Where the bars sit *)

Lemma bar_positions_app t1 t2 :
  bar_positions (t1 ++ t2) = bar_positions t1 ++ bar_positions t2.
Proof. apply flat_map_app. Qed.

Lemma bar_positions_stacked x_pos W kw ss b0 :
  Forall (eq x_pos) (bar_positions (calls (stacked_bars x_pos W kw ss b0))).
Proof.
  pose proof (stacked_bars_events x_pos W kw ss b0) as H.
  induction (calls (stacked_bars x_pos W kw ss b0)) as [|e t IH]; [constructor|].
  destruct (H e (or_introl eq_refl)) as (name & y & b & ->).
  cbn. constructor; [reflexivity|]. apply IH. intros e' He'. apply H. right; exact He'.
Qed.

Lemma bar_positions_finishing os axis xlabel ylabel title legend save_path grid sn :
  bar_positions (finishing os axis xlabel ylabel title legend save_path grid sn) = [].
Proof.
  pose proof (finishing_events os axis xlabel ylabel title legend save_path grid sn)
    as H.
  induction H as [|e t He _ IH]; [reflexivity|].
  destruct e; try discriminate He; exact IH.
Qed.

(** X17: in a completed stacked call every bar of every series sits exactly
    on the tick positions [0 .. n-1]: unlike grouped mode, no series is
    shifted sideways.  (Bars there are, unless the data holds no series.) *)
Theorem stacked_bars_sit_on_ticks os data x_data xlabel ylabel title legend save_path
    figsize style grid W kw :
  let run := plot_bar os data x_data xlabel ylabel title legend save_path figsize
                      style grid "stacked" W kw in
  result run = Returned tt ->
  exists n labels,
    tick_events (calls run) = [SetXticks (arange n); SetXticklabels labels]
    /\ Forall (eq (arange n)) (bar_positions (calls run))
    /\ (series_of data <> Some [] -> bar_positions (calls run) <> []).
Proof.
  intros run Hret. subst run. rewrite plot_bar_result in Hret.
  destruct (result (bar_series data x_data "stacked" W kw)) as [sn|e] eqn:E;
    [|discriminate Hret].
  destruct (bar_series_completed data x_data "stacked" W kw sn E)
    as (labels & n & bars & _ & Hcalls & Hbars & _).
  exists n, labels.
  assert (HF : Forall (fun e => is_bar e = true) bars).
  { destruct (series_of data) as [ss|].
    - destruct Hbars as (-> & _). apply draw_bars_only.
    - destruct Hbars as (y & -> & _). repeat constructor. }
  assert (Hticks : tick_events (calls (plot_bar os data x_data xlabel ylabel title
                                                legend save_path figsize style grid
                                                "stacked" W kw))
                   = [SetXticks (arange n); SetXticklabels labels]).
  { rewrite tick_events_plot_bar, Hcalls. apply tick_events_bars. exact HF. }
  assert (Hpos : bar_positions (calls (plot_bar os data x_data xlabel ylabel title
                                                legend save_path figsize style grid
                                                "stacked" W kw))
                 = bar_positions bars).
  { rewrite plot_bar_calls, E, Hcalls, !bar_positions_app, bar_positions_finishing.
    cbn. rewrite !app_nil_r. reflexivity. }
  rewrite Hpos. split; [exact Hticks|].
  destruct (series_of data) as [ss|].
  - destruct Hbars as (-> & Hdraw & _).
    unfold draw_bars in *. cbn [String.eqb Ascii.eqb Bool.eqb] in *.
    rewrite then_ret_tt in *. cbn [calls fst] in *.
    split; [apply bar_positions_stacked|].
    destruct ss as [|s ss]; [intros H; elim H; reflexivity|]. intros _.
    (* a completed loop over a non-empty series list has drawn a bar *)
    pose proof (drawn_stacked (arange n) W kw (s :: ss)
                  (zeros (List.length (arange n)))) as Hdrawn.
    destruct (stacked_bars (arange n) W kw (s :: ss) (zeros (List.length (arange n))))
      as [t [bottom|e']]; cbn [result calls fst snd] in *; [|discriminate Hdraw].
    specialize (Hdrawn bottom eq_refl).
    destruct t as [|e0 t]; [discriminate Hdrawn|].
    pose proof (Forall_inv HF) as He0. destruct e0; try discriminate He0.
    discriminate.
  - destruct Hbars as (y & -> & _).
    split; [repeat constructor | intros _; discriminate].
Qed.

Lemma stacked_bars_sit_on_ticks_witness :
  let run := plot_bar (posix [])
               (PDict [("a", flat [1; 2; 3]%Q); ("b", flat [4; 5; 6]%Q)]) PNone
               "X Axis" "Y Axis" "Bar Plot" LegendNone None (10, 6)%Z "default" true
               "stacked" (8 # 10)%Q [] in
  exists n labels,
    tick_events (calls run) = [SetXticks (arange n); SetXticklabels labels]
    /\ Forall (eq (arange n)) (bar_positions (calls run))
    /\ (series_of (PDict [("a", flat [1; 2; 3]%Q); ("b", flat [4; 5; 6]%Q)])
        <> Some [] -> bar_positions (calls run) <> []).
Proof.
  exact (stacked_bars_sit_on_ticks (posix [])
           (PDict [("a", flat [1; 2; 3]%Q); ("b", flat [4; 5; 6]%Q)]) PNone
           "X Axis" "Y Axis" "Bar Plot" LegendNone None (10, 6)%Z "default" true
           (8 # 10)%Q [] eq_refl).
Defined.

(** ** Grid *)

Lemma grid_calls_app t1 t2 : grid_calls (t1 ++ t2) = grid_calls t1 ++ grid_calls t2.
Proof. apply filter_app. Qed.

Lemma grid_calls_save_figure os p : grid_calls (calls (save_figure os p)) = [].
Proof.
  destruct p as [[|c s]|]; try reflexivity.
  unfold save_figure.
  destruct (negb (dirname os (String c s) =? "")%string
            && negb (path_exists os (dirname os (String c s)))); reflexivity.
Qed.

Lemma grid_calls_finishing os axis xlabel ylabel title legend save_path grid sn :
  grid_calls (finishing os axis xlabel ylabel title legend save_path grid sn)
  = if grid then [AxGrid axis] else [].
Proof.
  unfold finishing. rewrite !grid_calls_app, grid_calls_save_figure.
  destruct legend as [|[|]|l], sn, grid; reflexivity.
Qed.

(** X18: a completed call draws the grid exactly once when [grid] is true
    and never when it is false; [plot_line] asks for the full grid,
    [plot_bar] for the horizontal lines only ([axis='y']). *)
Theorem grid_policy os data x_data xlabel ylabel title legend save_path figsize style
    grid bar_type W kw :
  let line := plot_line os data x_data xlabel ylabel title legend save_path figsize
                        style grid kw in
  let bar := plot_bar os data x_data xlabel ylabel title legend save_path figsize
                      style grid bar_type W kw in
  (result line = Returned tt ->
   grid_calls (calls line) = if grid then [AxGrid None] else [])
  /\ (result bar = Returned tt ->
      grid_calls (calls bar) = if grid then [AxGrid (Some "y")] else []).
Proof.
  cbv zeta. rewrite plot_line_result, plot_bar_result, plot_line_calls, plot_bar_calls.
  rewrite !grid_calls_app.
  assert (Hl : grid_calls (calls (line_series data x_data kw)) = []).
  { apply (filter_disjoint is_grid is_line_event); [|apply line_series_events].
    intros []; intros H; try discriminate H; reflexivity. }
  assert (Hb : grid_calls (calls (bar_series data x_data bar_type W kw)) = []).
  { apply (filter_disjoint is_grid is_bar_event); [|apply bar_series_events].
    intros []; intros H; try discriminate H; reflexivity. }
  rewrite Hl, Hb. split.
  - destruct (result (line_series data x_data kw)); [|discriminate].
    intros _. rewrite grid_calls_finishing. reflexivity.
  - destruct (result (bar_series data x_data bar_type W kw)); [|discriminate].
    intros _. rewrite grid_calls_finishing. reflexivity.
Qed.

Lemma grid_policy_witness :
  grid_calls (calls (plot_bar_default (posix []) (flat [1; 2; 3]%Q)))
  = [AxGrid (Some "y")].
Proof.
  destruct (grid_policy (posix []) (flat [1; 2; 3]%Q) PNone "X Axis" "Y Axis"
              "Bar Plot" LegendNone None (10, 6)%Z "default" true "grouped"
              (8 # 10)%Q []) as (_ & H).
  exact (H eq_refl).
Defined.
